(** * extract_to_csv: conference export (JSON) to three CSV files

    A shallow embedding of [extract_to_csv.py] and of the parts of the Python
    runtime it calls ([dict] subscripting and [.get], truthiness, [str.join],
    [csv.DictWriter] with the default "excel" dialect), followed by the
    properties of the converter.

    Conventions of the model.
    - A Python [str] is held as a Rocq [string] of the bytes of its UTF-8
      form.  A [str] can hold a lone surrogate (U+D800 to U+DFFF:
      [json.load] gives one for the escape [\ud800]), which UTF-8 does not
      have; it is held as the three bytes ED, A0..BF, 80..BF that its code
      point would take.  The characters of a [str] are read off the bytes
      by [code_points].
    - A file's contents is its bytes.  The script opens its outputs with
      [encoding='utf-8'] and [newline='']: the text written reaches the
      file byte for byte, line terminators included, unless it holds a
      surrogate, which makes the write raise [UnicodeEncodeError].
    - A JSON object is the association list of its members in document
      order, keys pairwise distinct, as [json.load] builds a [dict].
    - An exception is a value of [exn]; a computation that may raise returns
      a [result]; [write_csv] and [main] also thread the file system.
    - Console output and failures of the operating system (permissions, a
      full disk) are outside the model. *)

From Stdlib Require Import ZArith String Ascii List DecimalString.
From Stdlib Require Floats.SpecFloat.
From stdpp Require Import base option list gmap strings.

#[local] Set Warnings "-register-all".
Set Default Proof Using "Type".

(** ** Values produced by [json.load] *)

Inductive value : Type :=
| JNull
| JBool (b : bool)
| JInt (z : Z)
| JFloat (f : SpecFloat.spec_float)
| JString (s : string)
| JList (items : list value)
| JObject (members : list (string * value)).

(** A [dict] with string keys, in insertion order. *)
Definition dict (A : Type) : Type := list (string * A).

(** The flat record an extractor builds: field name to value. *)
Definition record : Type := dict value.

Fixpoint dict_lookup {A : Type} (k : string) (d : dict A) : option A :=
  match d with
  | [] => None
  | (k', v) :: d' => if String.eqb k k' then Some v else dict_lookup k d'
  end.

Definition dict_keys {A : Type} (d : dict A) : list string := map fst d.

(** ** Exceptions and the error monad *)

Inductive exn : Type :=
| KeyError (key : string)
| TypeError
| AttributeError
| ValueError
| UnicodeEncodeError
| FileNotFoundError
| JSONDecodeError.

Inductive result (A : Type) : Type :=
| Ok (a : A)
| Raise (e : exn).

Arguments Ok {A} a.
Arguments Raise {A} e.

Definition bind {A B : Type} (m : result A) (k : A -> result B) : result B :=
  match m with
  | Ok a => k a
  | Raise e => Raise e
  end.

Notation "'let*' x ':=' m 'in' k" := (bind m (fun x => k))
  (at level 10, x name, m at level 100, k at level 200).

Fixpoint map_result {A B : Type} (f : A -> result B) (l : list A) : result (list B) :=
  match l with
  | [] => Ok []
  | a :: l' =>
      let* b := f a in
      let* bs := map_result f l' in
      Ok (b :: bs)
  end.

(** ** Python operations on JSON values *)

(** [v[k]] for a string key [k]. *)
Definition py_getitem (v : value) (k : string) : result value :=
  match v with
  | JObject d =>
      match dict_lookup k d with
      | Some x => Ok x
      | None => Raise (KeyError k)
      end
  | _ => Raise TypeError
  end.

(** [v.get(k, dflt)]: only a [dict] has the method. *)
Definition py_get (v : value) (k : string) (dflt : value) : result value :=
  match v with
  | JObject d => Ok (default dflt (dict_lookup k d))
  | _ => Raise AttributeError
  end.

(** [bool(v)]. *)
Definition py_truthy (v : value) : bool :=
  match v with
  | JNull => false
  | JBool b => b
  | JInt z => negb (Z.eqb z 0)
  | JFloat (SpecFloat.S754_zero _) => false
  | JFloat _ => true
  | JString s => negb (String.eqb s "")
  | JList items => negb (Nat.eqb (length items) 0)
  | JObject d => negb (Nat.eqb (length d) 0)
  end.

(** The characters of a [str], each as a [str] of its own.  In UTF-8 the
    bytes 80 to BF continue a character and every other byte starts one. *)
Definition continuation (c : ascii) : bool :=
  match c with
  | Ascii _ _ _ _ _ _ false true => true
  | _ => false
  end.

Definition starts_with_continuation (s : string) : bool :=
  match s with
  | String c _ => continuation c
  | EmptyString => false
  end.

Fixpoint code_points (s : string) : list string :=
  match s with
  | EmptyString => []
  | String c s' =>
      let rest := code_points s' in
      if starts_with_continuation s'
      then match rest with
           | x :: xs => String c x :: xs
           | [] => [String c ""]
           end
      else String c "" :: rest
  end.

(** The elements [for x in v] visits: the items of a list, the keys of a
    [dict], the characters of a [str]. *)
Definition py_iter (v : value) : result (list value) :=
  match v with
  | JList items => Ok items
  | JObject d => Ok (map JString (dict_keys d))
  | JString s => Ok (map JString (code_points s))
  | _ => Raise TypeError
  end.

(** [str(v)] raises [ValueError] for an [int] of more than 4300 digits
    (the default limit of CPython on the conversion), and so does [str()]
    of a list or dict that holds such a number. *)
Definition max_str_digits : nat := 4300.

Fixpoint str_raises (v : value) : bool :=
  match v with
  | JInt z => Nat.ltb max_str_digits (Decimal.nb_digits (N.to_uint (Z.abs_N z)))
  | JList items => existsb str_raises items
  | JObject members => existsb (fun m => str_raises (snd m)) members
  | _ => false
  end.

Definition as_str (v : value) : result string :=
  match v with
  | JString s => Ok s
  | _ => Raise TypeError
  end.

(** [sep.join(v)]: [v] must be iterable and every element a [str]. *)
Definition py_join (sep : string) (v : value) : result string :=
  let* items := py_iter v in
  let* strs := map_result as_str items in
  Ok (String.concat sep strs).

(** [f"{v}"] formats its value with [str()]; only whether that raises
    matters to what follows, the text goes to the console. *)
Definition py_format (v : value) : result unit :=
  if str_raises v then Raise ValueError else Ok tt.

(** ** The file system *)

Abbreviation files := (gmap string string).

(** A computation that may raise and may change files.  The files are
    returned in both cases: what was written before an exception stays. *)
Definition io (A : Type) : Type := files -> result A * files.

Definition io_bind {A B : Type} (m : io A) (k : A -> io B) : io B :=
  fun fs =>
    match m fs with
    | (Ok a, fs') => k a fs'
    | (Raise e, fs') => (Raise e, fs')
    end.

Definition io_lift {A : Type} (r : result A) : io A := fun fs => (r, fs).

Notation "'do*' x ':=' m 'in' k" := (io_bind m (fun x => k))
  (at level 10, x name, m at level 100, k at level 200).

(** [os.path.join(a, b)] on a POSIX system. *)
Definition ends_with_slash (a : string) : bool :=
  match rev (list_ascii_of_string a) with
  | c :: _ => Ascii.eqb c "/"
  | [] => false
  end.

Definition path_join (a b : string) : string :=
  if String.prefix "/" b then b
  else if String.eqb a "" || ends_with_slash a then a +:+ b
  else a +:+ "/" +:+ b.

(** ** Text files opened with [encoding='utf-8']

    The encoder refuses a surrogate.  In the bytes of a [str] a surrogate
    shows as the byte ED followed by a byte from A0 to BF. *)

Definition lead_ED (c : ascii) : bool := Ascii.eqb c (ascii_of_nat 237).

Definition high_continuation (c : ascii) : bool :=
  match c with
  | Ascii _ _ _ _ _ true false true => true
  | _ => false
  end.

Definition starts_high (s : string) : bool :=
  match s with
  | String c _ => high_continuation c
  | EmptyString => false
  end.

Fixpoint has_surrogate (s : string) : bool :=
  match s with
  | EmptyString => false
  | String c s' => lead_ED c && starts_high s' || has_surrogate s'
  end.

(** [f.write(text)]: the text is encoded as a whole before any of it joins
    what the file holds. *)
Definition file_write (text : string) (buf : string) : result unit * string :=
  if has_surrogate text then (Raise UnicodeEncodeError, buf)
  else (Ok tt, buf +:+ text).

(** ** [csv.writer], "excel" dialect, [QUOTE_MINIMAL] *)

Definition quotechar : ascii := ascii_of_nat 34.
Definition delimiter : ascii := ",".
Definition CR : ascii := ascii_of_nat 13.
Definition LF : ascii := ascii_of_nat 10.
Definition lineterminator : string := String CR (String LF "").

Definition special_char (c : ascii) : bool :=
  Ascii.eqb c delimiter || Ascii.eqb c quotechar || Ascii.eqb c CR || Ascii.eqb c LF.

Fixpoint needs_quotes (s : string) : bool :=
  match s with
  | EmptyString => false
  | String c s' => special_char c || needs_quotes s'
  end.

(** [doublequote=True]: an embedded quote character is written twice. *)
Fixpoint double_quotes (s : string) : string :=
  match s with
  | EmptyString => EmptyString
  | String c s' =>
      if Ascii.eqb c quotechar
      then String quotechar (String quotechar (double_quotes s'))
      else String c (double_quotes s')
  end.

Definition quoted (s : string) : string :=
  String quotechar (double_quotes s +:+ String quotechar "").

Definition csv_field (s : string) : string :=
  if needs_quotes s then quoted s else s.

(** One record of text.  A record whose only field is empty is written as a
    pair of quotes, so that the line is not blank. *)
Definition csv_line (fields : list string) : string :=
  match fields with
  | [EmptyString] => quoted ""
  | _ => String.concat (String delimiter "") (map csv_field fields)
  end +:+ lineterminator.

(** ** Reading comma-separated text back

    The script only writes.  To say what a written file holds, the text is
    read back the way [csv.reader] reads it with the same dialect: fields
    separated by the delimiter, records ended by CR LF (or a lone CR or
    LF), a field in quotes taken up to its closing quote, a doubled quote
    inside it standing for one quote.  A blank line is a record without
    fields. *)

Inductive reader_state : Type :=
| StartRecord | AfterCR | StartField | InField | InQuoted | QuoteInQuoted.

(** The state, the field read so far and the fields of the record so far. *)
Definition reader : Type := reader_state * string * list string.

Definition snoc (f : string) (c : ascii) : string := f +:+ String c "".

Definition start_field (row : list string) (c : ascii) : reader * option (list string) :=
  if Ascii.eqb c quotechar then ((InQuoted, "", row), None)
  else if Ascii.eqb c delimiter then ((StartField, "", row ++ [""]), None)
  else if Ascii.eqb c CR then ((AfterCR, "", []), Some (row ++ [""]))
  else if Ascii.eqb c LF then ((StartRecord, "", []), Some (row ++ [""]))
  else ((InField, String c "", row), None).

Definition start_record (c : ascii) : reader * option (list string) :=
  if Ascii.eqb c CR then ((AfterCR, "", []), Some [])
  else if Ascii.eqb c LF then ((StartRecord, "", []), Some [])
  else start_field [] c.

Definition end_field (f : string) (row : list string) (c : ascii) : reader * option (list string) :=
  if Ascii.eqb c delimiter then ((StartField, "", row ++ [f]), None)
  else if Ascii.eqb c CR then ((AfterCR, "", []), Some (row ++ [f]))
  else if Ascii.eqb c LF then ((StartRecord, "", []), Some (row ++ [f]))
  else ((InField, snoc f c, row), None).

(** One character: the next reader, and the record it ends, if any. *)
Definition step (r : reader) (c : ascii) : reader * option (list string) :=
  let '(st, f, row) := r in
  match st with
  | StartRecord => start_record c
  | AfterCR => if Ascii.eqb c LF then ((StartRecord, "", []), None) else start_record c
  | StartField => start_field row c
  | InField => end_field f row c
  | InQuoted =>
      if Ascii.eqb c quotechar then ((QuoteInQuoted, f, row), None)
      else ((InQuoted, snoc f c, row), None)
  | QuoteInQuoted =>
      if Ascii.eqb c quotechar then ((InQuoted, snoc f c, row), None)
      else end_field f row c
  end.

Fixpoint csv_read (r : reader) (s : string) : list (list string) :=
  match s with
  | EmptyString =>
      match r with
      | (StartRecord, _, _) | (AfterCR, _, _) => []
      | (_, f, row) => [row ++ [f]]
      end
  | String c s' =>
      match step r c with
      | (r', Some record) => record :: csv_read r' s'
      | (r', None) => csv_read r' s'
      end
  end.

Definition csv_records (s : string) : list (list string) := csv_read (StartRecord, "", []) s.

Definition starts_line_break (s : string) : bool :=
  match s with
  | String c _ => Ascii.eqb c CR || Ascii.eqb c LF
  | EmptyString => false
  end.

Section Converter.

(** The text of [str(v)] for floats, lists and dicts, which the converter
    passes to the writer untouched. *)
Variable py_repr : value -> string.

(** [json.loads]: the parse of a text, [None] on a syntax error. *)
Variable json_loads : string -> option value.

(** The text [csv.writer] writes for a value: a [str] as it is, [None] as
    the empty string, anything else through [str()]. *)
Definition cell_text (v : value) : string :=
  match v with
  | JString s => s
  | JNull => ""
  | JBool true => "True"
  | JBool false => "False"
  | JInt z => NilZero.string_of_int (Z.to_int z)
  | _ => py_repr v
  end.

(** ** [csv.DictWriter(f, fieldnames)], with the defaults
    [restval=''] and [extrasaction='raise'] *)

Definition restval : value := JString "".

Definition wrong_fields (fieldnames : list string) (rowdict : record) : list string :=
  filter (fun k => k ∉ fieldnames) (dict_keys rowdict).

Definition dict_to_list (fieldnames : list string) (rowdict : record) : result (list value) :=
  match wrong_fields fieldnames rowdict with
  | [] => Ok (map (fun k => default restval (dict_lookup k rowdict)) fieldnames)
  | _ :: _ => Raise ValueError
  end.

(** The writer takes a [str] and [None] as they are and calls [str()] on
    anything else, which may raise. *)
Definition field_text (v : value) : result string :=
  if str_raises v then Raise ValueError else Ok (cell_text v).

(** [csv.writer(f).writerow(row)]: the line is built from the texts of all
    the fields, then written to the file with one call of [f.write]. *)
Definition writer_writerow (row : list value) (buf : string) : result unit * string :=
  match map_result field_text row with
  | Ok texts => file_write (csv_line texts) buf
  | Raise e => (Raise e, buf)
  end.

(** [writerow]: the line is appended to what the open file holds. *)
Definition writerow (fieldnames : list string) (rowdict : record) (buf : string)
  : result unit * string :=
  match dict_to_list fieldnames rowdict with
  | Ok cells => writer_writerow cells buf
  | Raise e => (Raise e, buf)
  end.

Definition writeheader (fieldnames : list string) (buf : string) : result unit * string :=
  writerow fieldnames (zip fieldnames (map JString fieldnames)) buf.

(** [writerows]: rows are converted and written one at a time, so the rows
    before an offending one are in the file when the exception is raised
    and the file is closed. *)
Fixpoint writerows (fieldnames : list string) (rowdicts : list record) (buf : string)
  : result unit * string :=
  match rowdicts with
  | [] => (Ok tt, buf)
  | r :: rest =>
      match writerow fieldnames r buf with
      | (Ok _, buf') => writerows fieldnames rest buf'
      | (Raise e, buf') => (Raise e, buf')
      end
  end.

(** ** The script *)

(** [load_json_data(filepath)] *)
Definition load_json_data (filepath : string) : io value :=
  fun fs =>
    match fs !! filepath with
    | None => (Raise FileNotFoundError, fs)
    | Some text =>
        match json_loads text with
        | Some v => (Ok v, fs)
        | None => (Raise JSONDecodeError, fs)
        end
    end.

(** [write_csv(filename, data, fieldnames)]: mode ['w'] starts from an
    empty file; leaving the [with] block closes it, also on an exception,
    and the file then holds what was written before it.  The line printed
    after the block is console output. *)
Definition write_csv (filename : string) (data : list record) (fieldnames : list string)
  : io unit :=
  fun fs =>
    match writeheader fieldnames "" with
    | (Ok _, buf) =>
        let '(r, buf') := writerows fieldnames data buf in
        (r, <[filename := buf']> fs)
    | (Raise e, buf) => (Raise e, <[filename := buf]> fs)
    end.

(** ['|'.join(x.get(k, [])) if x.get(k) else ''] *)
Definition joined (x : value) (k : string) : result value :=
  let* c := py_get x k JNull in
  if py_truthy c
  then
    let* l := py_get x k (JList []) in
    let* s := py_join "|" l in
    Ok (JString s)
  else Ok (JString "").

Definition session_row (session : value) : result record :=
  let* id := py_getitem session "id" in
  let* title := py_getitem session "title" in
  let* description := py_get session "description" (JString "") in
  let* startTime := py_getitem session "startTime" in
  let* endTime := py_getitem session "endTime" in
  let* location := py_get session "location" (JString "") in
  let* track := py_get session "track" (JString "") in
  let* level := py_get session "level" (JString "") in
  let* tags := joined session "tags" in
  let* sourceUrl := py_get session "sourceUrl" (JString "") in
  let* lastUpdated := py_get session "lastUpdated" (JString "") in
  let* createdAt := py_getitem session "createdAt" in
  Ok [("id", id); ("title", title); ("description", description);
      ("startTime", startTime); ("endTime", endTime); ("location", location);
      ("track", track); ("level", level); ("tags", tags);
      ("sourceUrl", sourceUrl); ("lastUpdated", lastUpdated);
      ("createdAt", createdAt)].

(** [extract_sessions(data)] *)
Definition extract_sessions (data : value) : result (list record) :=
  let* d := py_getitem data "data" in
  let* arr := py_getitem d "sessions" in
  let* sessions := py_iter arr in
  map_result session_row sessions.

Definition speaker_row (speaker : value) : result record :=
  let* id := py_getitem speaker "id" in
  let* name := py_getitem speaker "name" in
  let* bio := py_get speaker "bio" (JString "") in
  let* company := py_get speaker "company" (JString "") in
  let* role := py_get speaker "role" (JString "") in
  let* imageUrl := py_get speaker "imageUrl" (JString "") in
  let* linkedinUrl := py_get speaker "linkedinUrl" (JString "") in
  let* twitterUrl := py_get speaker "twitterUrl" (JString "") in
  let* websiteUrl := py_get speaker "websiteUrl" (JString "") in
  let* profileSummary := py_get speaker "profileSummary" (JString "") in
  let* companyProfile := py_get speaker "companyProfile" (JString "") in
  let* expertise := joined speaker "expertise" in
  let* achievements := joined speaker "achievements" in
  let* lastProfileSync := py_get speaker "lastProfileSync" (JString "") in
  let* createdAt := py_getitem speaker "createdAt" in
  Ok [("id", id); ("name", name); ("bio", bio); ("company", company);
      ("role", role); ("imageUrl", imageUrl); ("linkedinUrl", linkedinUrl);
      ("twitterUrl", twitterUrl); ("websiteUrl", websiteUrl);
      ("profileSummary", profileSummary); ("companyProfile", companyProfile);
      ("expertise", expertise); ("achievements", achievements);
      ("lastProfileSync", lastProfileSync); ("createdAt", createdAt)].

(** [extract_speakers(data)] *)
Definition extract_speakers (data : value) : result (list record) :=
  let* d := py_getitem data "data" in
  let* arr := py_getitem d "speakers" in
  let* speakers := py_iter arr in
  map_result speaker_row speakers.

Definition relationship_row (rel : value) : result record :=
  let* sessionId := py_getitem rel "sessionId" in
  let* speakerId := py_getitem rel "speakerId" in
  Ok [("sessionId", sessionId); ("speakerId", speakerId)].

(** [extract_session_speakers(data)] *)
Definition extract_session_speakers (data : value) : result (list record) :=
  let* d := py_getitem data "data" in
  let* arr := py_getitem d "sessionSpeakers" in
  let* rels := py_iter arr in
  map_result relationship_row rels.

Definition json_file : string :=
  "/Users/andrewbartels/Projects/my-itcAI-project/itc-conference-app/itc-conference-app/data/exports/latest-export.json".

Definition output_dir : string :=
  "/Users/andrewbartels/Projects/my-itcAI-project/itc-conference-app/itc-conference-app/data/csv_exports".

Definition session_fields : list string :=
  ["id"; "title"; "description"; "startTime"; "endTime";
   "location"; "track"; "level"; "tags"; "sourceUrl";
   "lastUpdated"; "createdAt"].

Definition speaker_fields : list string :=
  ["id"; "name"; "bio"; "company"; "role"; "imageUrl";
   "linkedinUrl"; "twitterUrl"; "websiteUrl"; "profileSummary";
   "companyProfile"; "expertise"; "achievements";
   "lastProfileSync"; "createdAt"].

Definition relationship_fields : list string := ["sessionId"; "speakerId"].

Definition sessions_csv : string := path_join output_dir "sessions.csv".
Definition speakers_csv : string := path_join output_dir "speakers.csv".
Definition session_speakers_csv : string := path_join output_dir "session_speakers.csv".

(** Lines 95 to 100 of [main]: the metadata summary reads four keys and
    formats each value for its line. *)
Definition print_metadata (data : value) : result unit :=
  let* metadata := py_getitem data "metadata" in
  let* exportedAt := py_getitem metadata "exportedAt" in
  let* _ := py_format exportedAt in
  let* counts := py_getitem metadata "counts" in
  let* n_sessions := py_getitem counts "sessions" in
  let* _ := py_format n_sessions in
  let* counts := py_getitem metadata "counts" in
  let* n_speakers := py_getitem counts "speakers" in
  let* _ := py_format n_speakers in
  let* counts := py_getitem metadata "counts" in
  let* n_rels := py_getitem counts "sessionSpeakers" in
  let* _ := py_format n_rels in
  Ok tt.

(** Lines 94 to 121 of [main]: everything after the document is loaded. *)
Definition convert (data : value) : io unit :=
  do* _ := io_lift (print_metadata data) in
  do* sessions := io_lift (extract_sessions data) in
  do* _ := write_csv sessions_csv sessions session_fields in
  do* speakers := io_lift (extract_speakers data) in
  do* _ := write_csv speakers_csv speakers speaker_fields in
  do* relationships := io_lift (extract_session_speakers data) in
  write_csv session_speakers_csv relationships relationship_fields.

(** [main()].  [os.makedirs(output_dir, exist_ok=True)] is taken to succeed
    and the progress lines are not modelled. *)
Definition main : io unit :=
  do* data := load_json_data json_file in
  convert data.

(** ** Vocabulary of the statements *)

(** The member of a document at a path of keys, every step through an
    object; [None] when a key on the way is missing. *)
Fixpoint json_path (v : value) (path : list string) : option value :=
  match path with
  | [] => Some v
  | k :: rest =>
      match v with
      | JObject d =>
          match dict_lookup k d with
          | Some x => json_path x rest
          | None => None
          end
      | _ => None
      end
  end.

(** The keys the metadata summary prints. *)
Definition metadata_paths : list (list string) :=
  [["metadata"; "exportedAt"];
   ["metadata"; "counts"; "sessions"];
   ["metadata"; "counts"; "speakers"];
   ["metadata"; "counts"; "sessionSpeakers"]].

(** The values [DictWriter] hands to the writer for one record, and their
    texts, column by column. *)
Definition row_cells (fieldnames : list string) (r : record) : list value :=
  map (fun k => default restval (dict_lookup k r)) fieldnames.

Definition row_text (fieldnames : list string) (r : record) : list string :=
  map cell_text (row_cells fieldnames r).

(** What stops the writer at a record: a field outside the field list, a
    cell [str()] refuses, a cell whose text the file cannot encode. *)
Definition unprintable (fieldnames : list string) (r : record) : bool :=
  existsb str_raises (row_cells fieldnames r).

Definition unencodable (fieldnames : list string) (r : record) : bool :=
  existsb has_surrogate (row_text fieldnames r).

Definition writable (fieldnames : list string) (r : record) : Prop :=
  dict_keys r ⊆ fieldnames
  /\ unprintable fieldnames r = false
  /\ unencodable fieldnames r = false.

(** A record completed with the empty string for every field of the field
    list that it lacks. *)
Definition fill_missing (fieldnames : list string) (r : record) : record :=
  r ++ map (fun k => (k, restval)) (filter (fun k => k ∉ dict_keys r) fieldnames).

(** The [with] block of [write_csv] on its own: the outcome, and the text
    the file holds when it is closed. *)
Definition written (fieldnames : list string) (data : list record) : result unit * string :=
  match writeheader fieldnames "" with
  | (Ok _, buf) => writerows fieldnames data buf
  | (Raise e, buf) => (Raise e, buf)
  end.

(** The lines of a complete file: the header, then one line per record. *)
Definition csv_lines (fieldnames : list string) (data : list record) : list string :=
  csv_line fieldnames :: map (fun r => csv_line (row_text fieldnames r)) data.

Definition csv_text (fieldnames : list string) (data : list record) : string :=
  String.concat "" (csv_lines fieldnames data).

(** The fields of the source records by kind. *)
Definition session_required : list string :=
  ["id"; "title"; "startTime"; "endTime"; "createdAt"].

Definition session_optional : list string :=
  ["description"; "location"; "track"; "level"; "sourceUrl"; "lastUpdated"].

Definition speaker_required : list string := ["id"; "name"; "createdAt"].

Definition speaker_optional : list string :=
  ["bio"; "company"; "role"; "imageUrl"; "linkedinUrl"; "twitterUrl";
   "websiteUrl"; "profileSummary"; "companyProfile"; "lastProfileSync"].

(** [s.split(sep)] for a one-character separator. *)
Fixpoint split_on (sep : ascii) (s : string) : list string :=
  match s with
  | EmptyString => [EmptyString]
  | String c s' =>
      if Ascii.eqb c sep then EmptyString :: split_on sep s'
      else
        match split_on sep s' with
        | x :: xs => String c x :: xs
        | [] => [String c EmptyString]
        end
  end.

Fixpoint has_char (c : ascii) (s : string) : bool :=
  match s with
  | EmptyString => false
  | String c' s' => Ascii.eqb c' c || has_char c s'
  end.

(** A document that follows the data model of the export: the metadata the
    summary prints, and three lists whose elements are objects with their
    required members; a list-valued member is absent, null or a list of
    strings. *)
Definition has_keys (d : dict value) (ks : list string) : bool :=
  forallb (fun k => bool_decide (is_Some (dict_lookup k d))) ks.

Definition is_str (v : value) : bool :=
  match v with
  | JString _ => true
  | _ => false
  end.

Definition str_list_member (d : dict value) (k : string) : bool :=
  match dict_lookup k d with
  | None | Some JNull => true
  | Some (JList items) => forallb is_str items
  | Some _ => false
  end.

Definition valid_session (v : value) : bool :=
  match v with
  | JObject d => has_keys d session_required && str_list_member d "tags"
  | _ => false
  end.

Definition valid_speaker (v : value) : bool :=
  match v with
  | JObject d =>
      has_keys d speaker_required && str_list_member d "expertise"
      && str_list_member d "achievements"
  | _ => false
  end.

Definition valid_relationship (v : value) : bool :=
  match v with
  | JObject d => has_keys d relationship_fields
  | _ => false
  end.

Definition valid_array (valid : value -> bool) (d : value) (k : string) : bool :=
  match json_path d ["data"; k] with
  | Some (JList items) => forallb valid items
  | _ => false
  end.

Definition valid_document (d : value) : bool :=
  forallb (fun p => bool_decide (is_Some (json_path d p))) metadata_paths
  && valid_array valid_session d "sessions"
  && valid_array valid_speaker d "speakers"
  && valid_array valid_relationship d "sessionSpeakers".

(** The three outputs of a run, and what [main] pairs with each: the array
    read, the row function, the field list and the file. *)
Inductive category : Type := Sessions | Speakers | SessionSpeakers.

Definition array_key (c : category) : string :=
  match c with
  | Sessions => "sessions"
  | Speakers => "speakers"
  | SessionSpeakers => "sessionSpeakers"
  end.

Definition row_of (c : category) : value -> result record :=
  match c with
  | Sessions => session_row
  | Speakers => speaker_row
  | SessionSpeakers => relationship_row
  end.

Definition extract (c : category) : value -> result (list record) :=
  match c with
  | Sessions => extract_sessions
  | Speakers => extract_speakers
  | SessionSpeakers => extract_session_speakers
  end.

Definition fields_of (c : category) : list string :=
  match c with
  | Sessions => session_fields
  | Speakers => speaker_fields
  | SessionSpeakers => relationship_fields
  end.

Definition output_path (c : category) : string :=
  match c with
  | Sessions => sessions_csv
  | Speakers => speakers_csv
  | SessionSpeakers => session_speakers_csv
  end.

Definition required_fields (c : category) : list string :=
  match c with
  | Sessions => session_required
  | Speakers => speaker_required
  | SessionSpeakers => relationship_fields
  end.

Definition optional_scalars (c : category) : list string :=
  match c with
  | Sessions => session_optional
  | Speakers => speaker_optional
  | SessionSpeakers => []
  end.

Definition list_fields (c : category) : list string :=
  match c with
  | Sessions => ["tags"]
  | Speakers => ["expertise"; "achievements"]
  | SessionSpeakers => []
  end.

Definition valid_item (c : category) : value -> bool :=
  match c with
  | Sessions => valid_session
  | Speakers => valid_speaker
  | SessionSpeakers => valid_relationship
  end.

(** The session of the end-to-end scenario, and the file expected for it. *)
Definition talk_session : value :=
  JObject [("id", JString "s1"); ("title", JString "Talk");
           ("startTime", JString "T0"); ("endTime", JString "T1");
           ("createdAt", JString "C0");
           ("tags", JList [JString "ai"; JString "cloud"])].

Definition talk_header : string :=
  "id,title,description,startTime,endTime,location,track,level,tags,sourceUrl,lastUpdated,createdAt".

Definition talk_line : string := "s1,Talk,,T0,T1,,,,ai|cloud,,,C0".

Definition talk_csv : string :=
  talk_header +:+ lineterminator +:+ talk_line +:+ lineterminator.

(** Sample documents for the concrete runs at the end of the file. *)
Definition sample_metadata : value :=
  JObject [("exportedAt", JString "2025-01-01T00:00:00Z");
           ("counts", JObject [("sessions", JInt 1); ("speakers", JInt 1);
                               ("sessionSpeakers", JInt 1)])].

Definition sample_speaker : value :=
  JObject [("id", JString "p1"); ("name", JString "Ada");
           ("company", JNull); ("expertise", JList [JString "risk"]);
           ("createdAt", JString "C1")].

Definition sample_relationship : value :=
  JObject [("sessionId", JString "s1"); ("speakerId", JString "p1")].

Definition document (sessions speakers rels : list value) : value :=
  JObject [("metadata", sample_metadata);
           ("data", JObject [("sessions", JList sessions);
                             ("speakers", JList speakers);
                             ("sessionSpeakers", JList rels)])].

Definition sample_document : value :=
  document [talk_session] [sample_speaker] [sample_relationship].

(** A speaker without [id]: its extraction raises. *)
Definition nameless_speaker : value := JObject [("name", JString "Ada")].

Definition broken_speakers_document : value :=
  document [talk_session] [nameless_speaker] [sample_relationship].

(** The same data without the [metadata] member. *)
Definition no_metadata_document : value :=
  JObject [("data", JObject [("sessions", JList [talk_session]);
                             ("speakers", JList [sample_speaker]);
                             ("sessionSpeakers", JList [sample_relationship])])].

(** Sessions that lack a required member. *)
Definition session_without_id : dict value :=
  [("title", JString "Talk"); ("startTime", JString "T0");
   ("endTime", JString "T1"); ("createdAt", JString "C0")].

Definition session_without_title (id : string) : dict value :=
  [("id", JString id); ("startTime", JString "T0");
   ("endTime", JString "T1"); ("createdAt", JString "C0")].

(** Sessions with a null description, and with an empty list of tags. *)
Definition session_null_description : dict value :=
  [("id", JString "s1"); ("title", JString "Talk"); ("description", JNull);
   ("startTime", JString "T0"); ("endTime", JString "T1");
   ("createdAt", JString "C0")].

Definition session_tags (tags : list value) : dict value :=
  [("id", JString "s1"); ("title", JString "Talk");
   ("startTime", JString "T0"); ("endTime", JString "T1");
   ("createdAt", JString "C0"); ("tags", JList tags)].

(** Stand-ins for [str()] and [json.loads] in the concrete runs, which hold
    no float, list or dict cell and read one input text. *)
Definition sample_repr (v : value) : string := "<value>".

Definition sample_loads (text : string) : option value :=
  if String.eqb text "sample" then Some sample_document else None.

(** The character U+D800, a surrogate on its own, and a valid document
    whose second session has it as title. *)
Definition lone_surrogate : string :=
  String (ascii_of_nat 237) (String (ascii_of_nat 160) (String (ascii_of_nat 128) "")).

Definition untitled_session : value :=
  JObject [("id", JString "s2"); ("title", JString lone_surrogate);
           ("startTime", JString "T2"); ("endTime", JString "T3");
           ("createdAt", JString "C2")].

Definition surrogate_document : value :=
  document [talk_session; untitled_session] [sample_speaker] [sample_relationship].

(** More sample data: the sample document with other declared counts, a
    speaker that lacks only [createdAt], and a document whose sessions
    member is an object. *)
Definition miscounted_document : value :=
  JObject [("metadata",
            JObject [("exportedAt", JNull);
                     ("counts", JObject [("sessions", JInt 99); ("speakers", JInt 0);
                                         ("sessionSpeakers", JString "many")])]);
           ("data", JObject [("sessions", JList [talk_session]);
                             ("speakers", JList [sample_speaker]);
                             ("sessionSpeakers", JList [sample_relationship])])].

Definition speaker_without_createdAt : dict value :=
  [("id", JString "p2"); ("name", JString "Grace")].

Definition sessions_object_document : value :=
  JObject [("metadata", sample_metadata);
           ("data", JObject [("sessions", JObject [("s1", talk_session)]);
                             ("speakers", JList []);
                             ("sessionSpeakers", JList [])])].

(** More vocabulary: the shapes of values the extractors tell apart. *)
Definition is_object (v : value) : bool :=
  match v with
  | JObject _ => true
  | _ => false
  end.

Definition is_list (v : value) : bool :=
  match v with
  | JList _ => true
  | _ => false
  end.

(** An object without members or a string without characters: iterating
    over it visits nothing. *)
Definition empty_container (v : value) : bool :=
  match v with
  | JObject [] => true
  | JString EmptyString => true
  | _ => false
  end.

(** Every list-valued member of an element is absent, null or a list of
    strings. *)
Definition list_members_ok (c : category) (o : dict value) : bool :=
  forallb (str_list_member o) (list_fields c).

(** What a run does to the disk, told without the disk: the outcome, and
    the files written with their texts, in the order of the writes.
    [convert_plan] below shows that [convert] does exactly this. *)
Definition plan (d : value) : result unit * list (string * string) :=
  match print_metadata d with
  | Raise e => (Raise e, [])
  | Ok _ =>
      match extract_sessions d with
      | Raise e => (Raise e, [])
      | Ok r1 =>
          let w1 := (sessions_csv, (written session_fields r1).2) in
          match (written session_fields r1).1, extract_speakers d with
          | Raise e, _ => (Raise e, [w1])
          | Ok _, Raise e => (Raise e, [w1])
          | Ok _, Ok r2 =>
              let w2 := (speakers_csv, (written speaker_fields r2).2) in
              match (written speaker_fields r2).1, extract_session_speakers d with
              | Raise e, _ => (Raise e, [w1; w2])
              | Ok _, Raise e => (Raise e, [w1; w2])
              | Ok _, Ok r3 =>
                  ((written relationship_fields r3).1,
                   [w1; w2; (session_speakers_csv,
                             (written relationship_fields r3).2)])
              end
          end
      end
  end.

Fixpoint write_all (ws : list (string * string)) (fs : files) : files :=
  match ws with
  | [] => fs
  | (p, text) :: ws' => write_all ws' (<[p := text]> fs)
  end.

Definition output_paths : list string :=
  [sessions_csv; speakers_csv; session_speakers_csv].

(** ** The error monad *)

Lemma bind_Ok {A B : Type} (m : result A) (k : A -> result B) (b : B) :
  bind m k = Ok b <-> exists a, m = Ok a /\ k a = Ok b.
Proof.
  destruct m as [a|e]; simpl; split.
  - intros H. by exists a.
  - by intros (a' & [= <-] & H).
  - discriminate.
  - by intros (a' & [=] & _).
Qed.

Ltac inv_bind H :=
  repeat
    (let a := fresh "v" in
     let Ha := fresh "E" in
     apply bind_Ok in H as (a & Ha & H)).

Lemma map_result_Ok {A B : Type} (f : A -> result B) (l : list A) (bs : list B) :
  map_result f l = Ok bs <-> Forall2 (fun a b => f a = Ok b) l bs.
Proof.
  revert bs. induction l as [|a l IH]; intros bs; simpl.
  - split.
    + intros [= <-]. constructor.
    + intros H. by inversion H.
  - split.
    + intros H. inv_bind H. injection H as <-.
      constructor; [done | by apply IH].
    + intros H. inversion H as [|? b ? bs' Hab Hrest]; subst.
      rewrite Hab. simpl. apply IH in Hrest. by rewrite Hrest.
Qed.

Lemma map_result_total {A B : Type} (f : A -> result B) (l : list A) :
  Forall (fun a => exists b, f a = Ok b) l -> exists bs, map_result f l = Ok bs.
Proof.
  induction 1 as [|a l [b Hb] _ [bs Hbs]]; simpl.
  - by eexists.
  - rewrite Hb, Hbs. by eexists.
Qed.

(** [map_result] stops at the first element on which [f] raises. *)
Lemma map_result_Raise {A B : Type} (f : A -> result B) (l : list A) (e : exn) :
  map_result f l = Raise e <->
  exists i a, l !! i = Some a /\ f a = Raise e
              /\ Forall (fun a' => exists b, f a' = Ok b) (take i l).
Proof.
  induction l as [|a l IH]; simpl.
  - split; [discriminate|]. by intros (i & a & Hi & _).
  - destruct (f a) as [b|e'] eqn:Hfa; simpl.
    + destruct (map_result f l) as [bs|e''] eqn:Hl; simpl.
      * split; [discriminate|].
        intros ([|i] & a' & Hi & Ha' & Hpre); simpl in *.
        -- congruence.
        -- apply Forall_cons in Hpre as [_ Hpre].
           assert (Ok bs = Raise e) as [=].
           apply IH. by exists i, a'.
      * split.
        -- intros [= ->]. destruct (proj1 IH eq_refl) as (i & a' & Hi & Ha' & Hpre).
           exists (S i), a'. simpl. repeat split; try done.
           constructor; [by eexists | done].
        -- intros ([|i] & a' & Hi & Ha' & Hpre); simpl in *.
           ++ congruence.
           ++ apply Forall_cons in Hpre as [_ Hpre].
              apply IH. by exists i, a'.
    + split.
      * intros [= ->]. exists 0%nat, a. simpl. repeat split; try done; constructor.
      * intros ([|i] & a' & Hi & Ha' & Hpre); simpl in *.
        -- congruence.
        -- apply Forall_cons in Hpre as [[b Hb] _]. congruence.
Qed.

(** ** Strings *)

Lemma append_cons (x : ascii) (a b : string) : String x a +:+ b = String x (a +:+ b).
Proof. reflexivity. Qed.

Lemma append_assoc (a b c : string) : (a +:+ b) +:+ c = a +:+ (b +:+ c).
Proof. induction a as [|x a IH]; [done|]. by rewrite !append_cons, IH. Qed.

Lemma append_empty_r (a : string) : a +:+ "" = a.
Proof. induction a as [|x a IH]; [done|]. by rewrite append_cons, IH. Qed.

(** ** Flat records *)

Lemma py_get_object (d : dict value) (k : string) (dflt v : value) :
  py_get (JObject d) k dflt = Ok v -> v = default dflt (dict_lookup k d).
Proof. by intros [= <-]. Qed.

Lemma py_getitem_Ok (s : value) (k : string) (v : value) :
  py_getitem s k = Ok v -> exists d, s = JObject d /\ dict_lookup k d = Some v.
Proof.
  destruct s; simpl; try discriminate.
  destruct (dict_lookup k members) eqn:E; [|discriminate].
  intros [= <-]. eauto.
Qed.

Lemma session_row_keys (s : value) (r : record) :
  session_row s = Ok r -> dict_keys r = session_fields.
Proof. unfold session_row. intros H. inv_bind H. by injection H as <-. Qed.

Lemma speaker_row_keys (s : value) (r : record) :
  speaker_row s = Ok r -> dict_keys r = speaker_fields.
Proof. unfold speaker_row. intros H. inv_bind H. by injection H as <-. Qed.

Lemma relationship_row_keys (s : value) (r : record) :
  relationship_row s = Ok r -> dict_keys r = relationship_fields.
Proof. unfold relationship_row. intros H. inv_bind H. by injection H as <-. Qed.

Lemma dict_lookup_None {A : Type} (k : string) (d : dict A) :
  k ∉ dict_keys d -> dict_lookup k d = None.
Proof.
  induction d as [|[k' v] d IH]; simpl; [done|].
  intros Hk. apply not_elem_of_cons in Hk as [Hne Hk].
  destruct (String.eqb_spec k k'); [done | by apply IH].
Qed.

Lemma wrong_fields_nil (fieldnames : list string) (r : record) :
  wrong_fields fieldnames r = [] <-> dict_keys r ⊆ fieldnames.
Proof.
  unfold wrong_fields. generalize (dict_keys r) as l.
  induction l as [|k l IH]; [set_solver|].
  destruct (decide (k ∈ fieldnames)) as [Hin|Hout].
  - rewrite filter_cons_False by (intros H; by apply H).
    rewrite IH. split; intros H x Hx.
    + apply elem_of_cons in Hx as [->|Hx]; auto.
    + apply H. by right.
  - rewrite filter_cons_True by done. split; [done|].
    intros H. destruct Hout. apply H. by left.
Qed.

Lemma wrong_fields_own_keys (r : record) : wrong_fields (dict_keys r) r = [].
Proof. by apply wrong_fields_nil. Qed.

Lemma lookup_map {A B : Type} (f : A -> B) (l : list A) (i : nat) :
  map f l !! i = f <$> (l !! i).
Proof. revert i. induction l as [|a l IH]; intros [|i]; simpl; auto. Qed.

(** ** The writer *)

Lemma concat_empty_cons (x : string) (xs : list string) :
  String.concat "" (x :: xs) = x +:+ String.concat "" xs.
Proof. destruct xs; simpl; [by rewrite append_empty_r | done]. Qed.

Lemma header_lookup (fieldnames : list string) (k : string) :
  k ∈ fieldnames ->
  dict_lookup k (zip fieldnames (map JString fieldnames)) = Some (JString k).
Proof.
  induction fieldnames as [|a l IH]; simpl; [by intros ?%elem_of_nil|].
  intros Hk. destruct (String.eqb_spec k a) as [->|Hne]; [done|].
  apply IH. by apply elem_of_cons in Hk as [?|?].
Qed.

Lemma header_cells (fieldnames : list string) :
  dict_to_list fieldnames (zip fieldnames (map JString fieldnames))
  = Ok (map JString fieldnames).
Proof.
  unfold dict_to_list.
  assert (dict_keys (zip fieldnames (map JString fieldnames)) = fieldnames) as Hkeys.
  { unfold dict_keys. apply fst_zip. by rewrite length_map. }
  rewrite (proj2 (wrong_fields_nil _ _)) by by rewrite Hkeys.
  f_equal. apply map_ext_in. intros k Hk.
  rewrite header_lookup; [done | by apply list_elem_of_In].
Qed.

(** *** Surrogates in a line of text

    Quoting neither hides a surrogate nor makes one: a line has one exactly
    when one of its fields has. *)

Lemma starts_high_app (a : string) (c : ascii) (b : string) :
  high_continuation c = false -> starts_high (a +:+ String c b) = starts_high a.
Proof. intros Hc. by destruct a. Qed.

Lemma has_surrogate_app (a : string) (c : ascii) (b : string) :
  high_continuation c = false ->
  has_surrogate (a +:+ String c b) = has_surrogate a || has_surrogate (String c b).
Proof.
  intros Hc. induction a as [|x a IH]; [done|].
  rewrite append_cons. cbn [has_surrogate]. rewrite IH, starts_high_app by done.
  by rewrite orb_assoc.
Qed.

Lemma has_surrogate_cons (c : ascii) (s : string) :
  lead_ED c = false -> has_surrogate (String c s) = has_surrogate s.
Proof. intros Hc. cbn [has_surrogate]. by rewrite Hc. Qed.

Lemma starts_high_double_quotes (s : string) :
  starts_high (double_quotes s) = starts_high s.
Proof.
  destruct s as [|c s]; [done|]. cbn [double_quotes].
  destruct (Ascii.eqb c quotechar) eqn:Hc; [|done].
  by apply Ascii.eqb_eq in Hc as ->.
Qed.

Lemma has_surrogate_double_quotes (s : string) :
  has_surrogate (double_quotes s) = has_surrogate s.
Proof.
  induction s as [|c s IH]; [done|]. cbn [double_quotes].
  destruct (Ascii.eqb c quotechar) eqn:Hc.
  - apply Ascii.eqb_eq in Hc as ->. by rewrite !has_surrogate_cons.
  - cbn [has_surrogate]. by rewrite IH, starts_high_double_quotes.
Qed.

Lemma has_surrogate_quoted (s : string) : has_surrogate (quoted s) = has_surrogate s.
Proof.
  unfold quoted. rewrite has_surrogate_cons, has_surrogate_app by done.
  rewrite has_surrogate_double_quotes. apply orb_false_r.
Qed.

Lemma has_surrogate_csv_field (s : string) :
  has_surrogate (csv_field s) = has_surrogate s.
Proof. unfold csv_field. destruct (needs_quotes s); [apply has_surrogate_quoted | done]. Qed.

Lemma has_surrogate_fields (cells : list string) :
  has_surrogate (String.concat (String delimiter "") (map csv_field cells))
  = existsb has_surrogate cells.
Proof.
  induction cells as [|x cells IH]; [done|]. destruct cells as [|y cells].
  - cbn [map String.concat existsb]. by rewrite has_surrogate_csv_field, orb_false_r.
  - change (String.concat (String delimiter "") (map csv_field (x :: y :: cells)))
      with (csv_field x +:+ String delimiter
              (String.concat (String delimiter "") (map csv_field (y :: cells)))).
    rewrite has_surrogate_app, has_surrogate_cons, IH by done.
    by rewrite has_surrogate_csv_field.
Qed.

Lemma has_surrogate_csv_line (cells : list string) :
  has_surrogate (csv_line cells) = existsb has_surrogate cells.
Proof.
  assert (forall s, has_surrogate (s +:+ lineterminator) = has_surrogate s) as Hend.
  { intros s. unfold lineterminator. rewrite has_surrogate_app by done. apply orb_false_r. }
  unfold csv_line. rewrite Hend. destruct cells as [|x [|y cells]].
  - done.
  - destruct x; [done|]. apply (has_surrogate_fields [_]).
  - destruct x; apply has_surrogate_fields.
Qed.

(** *** One record *)

Lemma field_texts (cells : list value) :
  map_result field_text cells
  = if existsb str_raises cells then Raise ValueError else Ok (map cell_text cells).
Proof.
  induction cells as [|v cells IH]; [done|]. cbn [map_result existsb map].
  unfold field_text at 1. destruct (str_raises v); [done|]. cbn [bind orb].
  rewrite IH. by destruct (existsb str_raises cells).
Qed.

Lemma writer_writerow_eq (cells : list value) (buf : string) :
  writer_writerow cells buf
  = if existsb str_raises cells then (Raise ValueError, buf)
    else if existsb has_surrogate (map cell_text cells)
         then (Raise UnicodeEncodeError, buf)
         else (Ok tt, buf +:+ csv_line (map cell_text cells)).
Proof.
  unfold writer_writerow. rewrite field_texts.
  destruct (existsb str_raises cells); [done|].
  unfold file_write. by rewrite has_surrogate_csv_line.
Qed.

Lemma writerow_eq (fieldnames : list string) (r : record) (buf : string) :
  writerow fieldnames r buf
  = match wrong_fields fieldnames r with
    | _ :: _ => (Raise ValueError, buf)
    | [] =>
        if unprintable fieldnames r then (Raise ValueError, buf)
        else if unencodable fieldnames r then (Raise UnicodeEncodeError, buf)
        else (Ok tt, buf +:+ csv_line (row_text fieldnames r))
    end.
Proof.
  unfold writerow, dict_to_list. destruct (wrong_fields fieldnames r); [|done].
  apply writer_writerow_eq.
Qed.

Lemma writerow_ok (fieldnames : list string) (r : record) (buf : string) :
  writable fieldnames r ->
  writerow fieldnames r buf = (Ok tt, buf +:+ csv_line (row_text fieldnames r)).
Proof.
  intros (Hk & Hp & He). rewrite writerow_eq.
  by rewrite (proj2 (wrong_fields_nil _ _)), Hp, He.
Qed.

Lemma writerow_Ok (fieldnames : list string) (r : record) (buf buf' : string) :
  writerow fieldnames r buf = (Ok tt, buf') -> writable fieldnames r.
Proof.
  rewrite writerow_eq. unfold writable.
  destruct (wrong_fields fieldnames r) eqn:Hw; [|done].
  apply wrong_fields_nil in Hw.
  destruct (unprintable fieldnames r); [done|].
  by destruct (unencodable fieldnames r).
Qed.

(** A record that is not written leaves the file as it is; the exception
    tells the field check and [str()] ([ValueError]) from the encoder. *)
Lemma writerow_raise (fieldnames : list string) (r : record) (buf : string) :
  ~ writable fieldnames r ->
  writerow fieldnames r buf
  = (Raise (if bool_decide (dict_keys r ⊆ fieldnames) && negb (unprintable fieldnames r)
            then UnicodeEncodeError else ValueError), buf).
Proof.
  intros Hr. rewrite writerow_eq. unfold writable in Hr.
  destruct (wrong_fields fieldnames r) eqn:Hw.
  - apply wrong_fields_nil in Hw. rewrite bool_decide_eq_true_2 by done.
    destruct (unprintable fieldnames r); [done|].
    destruct (unencodable fieldnames r); [done|]. by destruct Hr.
  - rewrite bool_decide_eq_false_2; [done|].
    intros H. apply wrong_fields_nil in H. congruence.
Qed.

Lemma one_writable (fieldnames : list string) (r : record) :
  wrong_fields fieldnames r = [] ->
  unprintable fieldnames r = false ->
  unencodable fieldnames r = false ->
  Forall (writable fieldnames) [r].
Proof.
  intros Hw Hp He. constructor; [|constructor].
  split; [by apply wrong_fields_nil | done].
Qed.

(** *** The header *)

Lemma writeheader_eq (fieldnames : list string) (buf : string) :
  writeheader fieldnames buf = file_write (csv_line fieldnames) buf.
Proof.
  unfold writeheader, writerow. rewrite header_cells. unfold writer_writerow.
  rewrite field_texts.
  assert (existsb str_raises (map JString fieldnames) = false) as ->.
  { induction fieldnames; [done | by cbn]. }
  by rewrite map_map, map_id.
Qed.

Lemma writeheader_ok (fieldnames : list string) (buf : string) :
  existsb has_surrogate fieldnames = false ->
  writeheader fieldnames buf = (Ok tt, buf +:+ csv_line fieldnames).
Proof.
  intros H. rewrite writeheader_eq. unfold file_write.
  by rewrite has_surrogate_csv_line, H.
Qed.

Lemma writeheader_raise (fieldnames : list string) (buf : string) :
  existsb has_surrogate fieldnames = true ->
  writeheader fieldnames buf = (Raise UnicodeEncodeError, buf).
Proof.
  intros H. rewrite writeheader_eq. unfold file_write.
  by rewrite has_surrogate_csv_line, H.
Qed.

(** *** All the records *)

Lemma writerows_ok (fieldnames : list string) (data : list record) (buf : string) :
  Forall (writable fieldnames) data ->
  writerows fieldnames data buf
  = (Ok tt, buf +:+ String.concat "" (map (fun r => csv_line (row_text fieldnames r)) data)).
Proof.
  intros H. revert buf. induction H as [|r data Hr _ IH]; intros buf.
  - simpl. by rewrite append_empty_r.
  - cbn [writerows map]. rewrite writerow_ok by done.
    rewrite IH, concat_empty_cons, append_assoc. done.
Qed.

Lemma writerows_Ok (fieldnames : list string) (data : list record) (buf buf' : string) :
  writerows fieldnames data buf = (Ok tt, buf') -> Forall (writable fieldnames) data.
Proof.
  revert buf. induction data as [|r data IH]; intros buf; [constructor|].
  cbn [writerows]. destruct (writerow fieldnames r buf) as [[[]|e] buf1] eqn:Hr; [|done].
  intros H. constructor; [by eapply writerow_Ok | by eapply IH].
Qed.

(** The writer stops at the first record it cannot write. *)
Lemma writerows_stop (fieldnames : list string) (before : list record)
    (r : record) (after : list record) (buf : string) :
  Forall (writable fieldnames) before ->
  ~ writable fieldnames r ->
  writerows fieldnames (before ++ r :: after) buf
  = ((writerow fieldnames r "").1,
     buf +:+ String.concat "" (map (fun r => csv_line (row_text fieldnames r)) before)).
Proof.
  intros Hbefore Hr. revert buf.
  induction Hbefore as [|r0 before Hr0 _ IH]; intros buf.
  - cbn [app writerows map String.concat]. rewrite !writerow_raise by done.
    by rewrite append_empty_r.
  - cbn [app writerows map]. rewrite writerow_ok by done.
    by rewrite IH, concat_empty_cons, append_assoc.
Qed.

(** *** The file *)

Lemma write_csv_written (filename : string) (data : list record) (fieldnames : list string)
    (fs : files) :
  write_csv filename data fieldnames fs
  = ((written fieldnames data).1, <[filename := (written fieldnames data).2]> fs).
Proof.
  unfold write_csv, written.
  destruct (writeheader fieldnames "") as [[[]|e] buf]; [|done].
  by destruct (writerows fieldnames data buf).
Qed.

Lemma written_ok (fieldnames : list string) (data : list record) :
  existsb has_surrogate fieldnames = false ->
  Forall (writable fieldnames) data ->
  written fieldnames data = (Ok tt, csv_text fieldnames data).
Proof.
  intros Hh H. unfold written. rewrite writeheader_ok, writerows_ok by done.
  unfold csv_text, csv_lines. by rewrite concat_empty_cons.
Qed.

Lemma written_Ok (fieldnames : list string) (data : list record) :
  (written fieldnames data).1 = Ok tt ->
  existsb has_surrogate fieldnames = false
  /\ Forall (writable fieldnames) data
  /\ written fieldnames data = (Ok tt, csv_text fieldnames data).
Proof.
  intros H. destruct (existsb has_surrogate fieldnames) eqn:Hh.
  { unfold written in H. by rewrite writeheader_raise in H. }
  assert (Forall (writable fieldnames) data) as Hdata.
  { unfold written in H. rewrite writeheader_ok in H by done.
    destruct (writerows fieldnames data ("" +:+ csv_line fieldnames)) as [o text] eqn:Hw.
    simpl in H. subst o. by eapply writerows_Ok. }
  split; [done|]. split; [done | by apply written_ok].
Qed.

Lemma written_stop (fieldnames : list string) (before : list record) (r : record)
    (after : list record) :
  existsb has_surrogate fieldnames = false ->
  Forall (writable fieldnames) before ->
  ~ writable fieldnames r ->
  written fieldnames (before ++ r :: after)
  = ((writerow fieldnames r "").1, csv_text fieldnames before).
Proof.
  intros Hh Hbefore Hr. unfold written.
  rewrite writeheader_ok, writerows_stop by done.
  unfold csv_text, csv_lines. by rewrite concat_empty_cons.
Qed.

Lemma write_csv_ok (filename : string) (data : list record) (fieldnames : list string)
    (fs : files) :
  existsb has_surrogate fieldnames = false ->
  Forall (writable fieldnames) data ->
  write_csv filename data fieldnames fs
  = (Ok tt, <[filename := csv_text fieldnames data]> fs).
Proof. intros Hh H. by rewrite write_csv_written, written_ok. Qed.

Lemma write_csv_Ok (filename : string) (data : list record) (fieldnames : list string)
    (fs : files) :
  (write_csv filename data fieldnames fs).1 = Ok tt ->
  existsb has_surrogate fieldnames = false
  /\ Forall (writable fieldnames) data
  /\ write_csv filename data fieldnames fs
     = (Ok tt, <[filename := csv_text fieldnames data]> fs).
Proof.
  rewrite write_csv_written. simpl. intros (Hh & Hdata & Hw)%written_Ok.
  by rewrite Hw.
Qed.

(** ** The reader gives back what the writer wrote *)

Lemma special_char_false (c : ascii) :
  special_char c = false ->
  Ascii.eqb c delimiter = false /\ Ascii.eqb c quotechar = false
  /\ Ascii.eqb c CR = false /\ Ascii.eqb c LF = false.
Proof.
  unfold special_char. intros H.
  apply orb_false_elim in H as [H H4]. apply orb_false_elim in H as [H H3].
  apply orb_false_elim in H as [H1 H2]. done.
Qed.

Lemma read_unquoted (x f : string) (row : list string) (rest : string) :
  needs_quotes x = false ->
  csv_read (InField, f, row) (x +:+ rest) = csv_read (InField, f +:+ x, row) rest.
Proof.
  revert f. induction x as [|c x IH]; intros f Hx.
  - by rewrite append_empty_r.
  - simpl in Hx. apply orb_false_elim in Hx as [Hc Hx].
    apply special_char_false in Hc as (Hd & Hq & Hcr & Hlf).
    rewrite append_cons. cbn [csv_read step]. unfold end_field.
    rewrite Hd, Hcr, Hlf. rewrite IH by done. unfold snoc.
    by rewrite append_assoc.
Qed.

Lemma read_quoted (x f : string) (row : list string) (rest : string) :
  csv_read (InQuoted, f, row) (double_quotes x +:+ String quotechar rest)
  = csv_read (QuoteInQuoted, f +:+ x, row) rest.
Proof.
  revert f. induction x as [|c x IH]; intros f.
  - rewrite append_empty_r. reflexivity.
  - cbn [double_quotes]. destruct (Ascii.eqb c quotechar) eqn:Hc.
    + apply Ascii.eqb_eq in Hc as ->. rewrite !append_cons.
      cbn [csv_read step]. rewrite Ascii.eqb_refl. cbn [csv_read step].
      rewrite Ascii.eqb_refl. rewrite IH. unfold snoc. by rewrite append_assoc.
    + rewrite append_cons. cbn [csv_read step]. rewrite Hc.
      rewrite IH. unfold snoc. by rewrite append_assoc.
Qed.

(** One field followed by a character [t] that ends it. *)
Lemma read_field (x : string) (row : list string) (t : ascii) (rest : string) :
  Ascii.eqb t quotechar = false ->
  csv_read (StartField, "", row) (csv_field x +:+ String t rest)
  = match end_field x row t with
    | (r', Some record) => record :: csv_read r' rest
    | (r', None) => csv_read r' rest
    end.
Proof.
  intros Ht. unfold csv_field. destruct (needs_quotes x) eqn:Hx.
  - unfold quoted. rewrite append_cons, append_assoc.
    cbn [csv_read step]. unfold start_field at 1. rewrite Ascii.eqb_refl.
    change (String quotechar "" +:+ String t rest) with (String quotechar (String t rest)).
    rewrite read_quoted. cbn [csv_read step]. by rewrite Ht.
  - destruct x as [|c x].
    + change ("" +:+ String t rest) with (String t rest). cbn [csv_read step].
      unfold start_field, end_field. rewrite Ht.
      destruct (Ascii.eqb t delimiter); [done|].
      destruct (Ascii.eqb t CR); [done|].
      destruct (Ascii.eqb t LF) eqn:Hlf; [done|].
      (* a character that does not end the field: both sides keep reading *)
      reflexivity.
    + simpl in Hx. apply orb_false_elim in Hx as [Hc Hx].
      apply special_char_false in Hc as (Hd & Hq & Hcr & Hlf).
      rewrite append_cons. cbn [csv_read step]. unfold start_field.
      rewrite Hq, Hd, Hcr, Hlf. rewrite read_unquoted by done.
      reflexivity.
Qed.

Lemma read_fields (cells : list string) (row : list string) (rest : string) :
  cells <> [] ->
  csv_read (StartField, "", row)
    (String.concat (String delimiter "") (map csv_field cells) +:+ lineterminator +:+ rest)
  = (row ++ cells) :: csv_records rest.
Proof.
  revert row. induction cells as [|x cells IH]; intros row Hne; [done|].
  destruct cells as [|y cells].
  - simpl String.concat. unfold lineterminator.
    rewrite append_cons, read_field by done. unfold end_field. simpl.
    reflexivity.
  - change (String.concat (String delimiter "") (map csv_field (x :: y :: cells)))
      with (csv_field x +:+ String delimiter
              (String.concat (String delimiter "") (map csv_field (y :: cells)))).
    rewrite append_assoc, append_cons, read_field by done.
    unfold end_field. rewrite Ascii.eqb_refl.
    rewrite IH by done. by rewrite <- app_assoc.
Qed.

Lemma read_first_field (s : string) :
  s <> "" -> starts_line_break s = false ->
  csv_records s = csv_read (StartField, "", []) s.
Proof.
  destruct s as [|c s]; [done|]. intros _ [Hcr Hlf]%orb_false_elim.
  unfold csv_records. cbn [csv_read step]. unfold start_record.
  by rewrite Hcr, Hlf.
Qed.

Lemma csv_field_start (x rest : string) :
  x <> "" ->
  csv_field x +:+ rest <> "" /\ starts_line_break (csv_field x +:+ rest) = false.
Proof.
  intros Hx. unfold csv_field. destruct (needs_quotes x) eqn:Hq.
  - unfold quoted. by rewrite append_cons.
  - destruct x as [|c x]; [done|]. rewrite append_cons. split; [done|].
    simpl in Hq. apply orb_false_elim in Hq as [Hc _].
    apply special_char_false in Hc as (_ & _ & Hcr & Hlf).
    simpl. by rewrite Hcr, Hlf.
Qed.

Lemma read_line (cells : list string) (rest : string) :
  csv_records (csv_line cells +:+ rest) = cells :: csv_records rest.
Proof.
  assert (forall cs : list string,
            cs <> [] ->
            String.concat (String delimiter "") (map csv_field cs) +:+ lineterminator +:+ rest <> ""
            /\ starts_line_break
                 (String.concat (String delimiter "") (map csv_field cs)
                  +:+ lineterminator +:+ rest) = false ->
            csv_records (String.concat (String delimiter "") (map csv_field cs)
                         +:+ lineterminator +:+ rest)
            = cs :: csv_records rest) as Hgen.
  { intros cs Hne [H1 H2]. rewrite read_first_field by done. by rewrite read_fields. }
  unfold csv_line. destruct cells as [|x [|y cells]].
  - reflexivity.
  - destruct x as [|c x]; [reflexivity|].
    rewrite append_assoc. apply Hgen; [done|]. simpl String.concat.
    by apply csv_field_start.
  - assert (csv_records (String.concat (String delimiter "")
                            (map csv_field (x :: y :: cells))
                          +:+ lineterminator +:+ rest)
            = (x :: y :: cells) :: csv_records rest) as Hrow.
    { apply Hgen; [done|].
      change (String.concat (String delimiter "") (map csv_field (x :: y :: cells)))
        with (csv_field x +:+ String delimiter
                (String.concat (String delimiter "") (map csv_field (y :: cells)))).
      rewrite append_assoc. destruct x as [|c x]; [done|].
      by apply csv_field_start. }
    rewrite append_assoc. by destruct x.
Qed.

Lemma read_lines (rows : list (list string)) :
  csv_records (String.concat "" (map csv_line rows)) = rows.
Proof.
  induction rows as [|r rows IH]; [done|].
  cbn [map]. by rewrite concat_empty_cons, read_line, IH.
Qed.

Lemma csv_records_text (fieldnames : list string) (data : list record) :
  csv_records (csv_text fieldnames data) = fieldnames :: map (row_text fieldnames) data.
Proof.
  unfold csv_text, csv_lines.
  transitivity (csv_records (String.concat ""
                  (map csv_line (fieldnames :: map (row_text fieldnames) data)))).
  - cbn [map]. by rewrite map_map.
  - apply read_lines.
Qed.

(** ** Extractors *)

Lemma rows_keys {A : Type} (f : A -> result record) (fieldnames : list string)
    (l : list A) (rows : list record) :
  (forall a r, f a = Ok r -> dict_keys r = fieldnames) ->
  map_result f l = Ok rows -> Forall (fun r => dict_keys r = fieldnames) rows.
Proof.
  intros Hf H. apply map_result_Ok in H.
  induction H; constructor; eauto.
Qed.

Lemma extract_sessions_keys (d : value) (rows : list record) :
  extract_sessions d = Ok rows -> Forall (fun r => dict_keys r = session_fields) rows.
Proof.
  unfold extract_sessions. intros H. inv_bind H.
  eapply rows_keys; [apply session_row_keys | done].
Qed.

Lemma extract_speakers_keys (d : value) (rows : list record) :
  extract_speakers d = Ok rows -> Forall (fun r => dict_keys r = speaker_fields) rows.
Proof.
  unfold extract_speakers. intros H. inv_bind H.
  eapply rows_keys; [apply speaker_row_keys | done].
Qed.

Lemma extract_session_speakers_keys (d : value) (rows : list record) :
  extract_session_speakers d = Ok rows ->
  Forall (fun r => dict_keys r = relationship_fields) rows.
Proof.
  unfold extract_session_speakers. intros H. inv_bind H.
  eapply rows_keys; [apply relationship_row_keys | done].
Qed.

(** ** Claims about the writer and the shape of the records *)

Lemma dict_lookup_app {A : Type} (k : string) (d d' : dict A) :
  dict_lookup k (d ++ d')
  = match dict_lookup k d with
    | Some v => Some v
    | None => dict_lookup k d'
    end.
Proof.
  induction d as [|[k' v] d IH]; [done|]. simpl.
  by destruct (String.eqb k k').
Qed.

Lemma restval_lookup (l : list string) (k : string) :
  k ∈ l -> dict_lookup k (map (fun k => (k, restval)) l) = Some restval.
Proof.
  induction l as [|a l IH]; simpl; [by intros ?%elem_of_nil|].
  intros Hk. destruct (String.eqb_spec k a) as [->|Hne]; [done|].
  apply IH. by apply elem_of_cons in Hk as [?|?].
Qed.

Lemma fill_missing_keys (fieldnames : list string) (r : record) :
  dict_keys (fill_missing fieldnames r)
  = dict_keys r ++ filter (fun k => k ∉ dict_keys r) fieldnames.
Proof.
  unfold fill_missing, dict_keys. rewrite map_app, map_map. simpl.
  by rewrite map_id.
Qed.

Lemma fill_missing_cells (fieldnames : list string) (r : record) :
  row_cells fieldnames (fill_missing fieldnames r) = row_cells fieldnames r.
Proof.
  unfold row_cells. apply map_ext_in. intros k Hk%list_elem_of_In.
  unfold fill_missing. rewrite dict_lookup_app.
  destruct (dict_lookup k r) as [v|] eqn:Hr; [done|].
  rewrite restval_lookup; [done|]. apply list_elem_of_filter. split; [|done].
  intros Hin. unfold dict_keys in Hin. apply list_elem_of_fmap in Hin as ([k' v] & -> & Hin).
  clear Hk. induction r as [|[k'' v''] r IH]; [by apply elem_of_nil in Hin|].
  simpl in Hr. destruct (String.eqb_spec k' k''); [done|].
  apply elem_of_cons in Hin as [[= -> ->]|Hin]; [done | by apply IH].
Qed.

Lemma fill_missing_wrong_fields (fieldnames : list string) (r : record) :
  wrong_fields fieldnames (fill_missing fieldnames r) = wrong_fields fieldnames r.
Proof.
  unfold wrong_fields. rewrite fill_missing_keys, filter_app.
  assert (filter (fun k => k ∉ fieldnames)
            (filter (fun k => k ∉ dict_keys r) fieldnames) = []) as ->; [|apply app_nil_r].
  generalize (dict_keys r) as keys. intros keys.
  assert (forall l, l ⊆ fieldnames -> filter (fun k => k ∉ fieldnames) l = []) as Hnone.
  { induction l as [|k l IH]; [done|]. intros Hl.
    rewrite filter_cons_False by (intros H; apply H, Hl; by left).
    apply IH. intros x Hx. apply Hl. by right. }
  apply Hnone. intros k Hk. by apply list_elem_of_filter in Hk as [_ ?].
Qed.

(** A record is written like the record completed with empty strings. *)
Lemma fill_missing_writerow (fieldnames : list string) (r : record) (buf : string) :
  writerow fieldnames (fill_missing fieldnames r) buf = writerow fieldnames r buf.
Proof.
  rewrite !writerow_eq. unfold unprintable, unencodable, row_text.
  by rewrite fill_missing_wrong_fields, fill_missing_cells.
Qed.

Lemma fill_missing_writerows (fieldnames : list string) (data : list record) (buf : string) :
  writerows fieldnames (map (fill_missing fieldnames) data) buf
  = writerows fieldnames data buf.
Proof.
  revert buf. induction data as [|r data IH]; intros buf; [done|].
  cbn [map writerows]. rewrite fill_missing_writerow.
  destruct (writerow fieldnames r buf) as [[[]|e] buf1]; [apply IH | done].
Qed.

Lemma fill_missing_has_fields (fieldnames : list string) (r : record) :
  fieldnames ⊆ dict_keys (fill_missing fieldnames r).
Proof.
  intros k Hk. rewrite fill_missing_keys. apply elem_of_app.
  destruct (decide (k ∈ dict_keys r)); [by left|].
  right. by apply list_elem_of_filter.
Qed.

Lemma missing_cell_empty (fieldnames : list string) (r : record) (i : nat) (k : string) :
  fieldnames !! i = Some k -> k ∉ dict_keys r -> row_text fieldnames r !! i = Some "".
Proof.
  intros Hi Hk. unfold row_text, row_cells. rewrite !lookup_map, Hi. simpl.
  by rewrite dict_lookup_None.
Qed.

(** C1 (as the code has it): [csv.DictWriter] is built with its default
    [restval=''], so a record that lacks a field of the field list is not
    an error: it is written exactly like the record completed with the
    empty string for that field, with the same outcome and the same file.
    When the writer succeeds, the file read back holds the header and one
    record per record written, in order, and the column of a field that a
    record lacks holds the empty string. *)
Theorem write_csv_blank_for_missing_field
    (filename : string) (data : list record) (fieldnames : list string) (fs : files) :
  write_csv filename (map (fill_missing fieldnames) data) fieldnames fs
  = write_csv filename data fieldnames fs
  /\ Forall (fun r => fieldnames ⊆ dict_keys r) (map (fill_missing fieldnames) data)
  /\ ((write_csv filename data fieldnames fs).1 = Ok tt ->
      exists text,
        write_csv filename data fieldnames fs = (Ok tt, <[filename := text]> fs)
        /\ csv_records text = fieldnames :: map (row_text fieldnames) data
        /\ forall (j : nat) (r : record) (i : nat) (k : string),
             data !! j = Some r -> fieldnames !! i = Some k -> k ∉ dict_keys r ->
             exists cells, csv_records text !! S j = Some cells /\ cells !! i = Some "").
Proof.
  split; [|split].
  - unfold write_csv. destruct (writeheader fieldnames "") as [[[]|e] buf]; [|done].
    by rewrite fill_missing_writerows.
  - apply Forall_forall. intros r' (r & -> & _)%list_elem_of_fmap.
    apply fill_missing_has_fields.
  - intros (_ & _ & Hw)%write_csv_Ok. exists (csv_text fieldnames data).
    split; [done|]. split; [apply csv_records_text|].
    intros j r i k Hj Hi Hk. exists (row_text fieldnames r).
    rewrite csv_records_text. simpl. rewrite lookup_map, Hj. split; [done|].
    by apply (missing_cell_empty fieldnames r i k).
Qed.

(** C9: every record an extractor returns has exactly the keys of the field
    list [main] passes to the writer with it, in the same order (12 for
    sessions, 15 for speakers, 2 for relationships), so [DictWriter] finds
    no field outside the list: its check raises for none of them and hands
    the writer one cell per field. *)
Theorem extractor_records_fit_field_lists (d : value) (c : category) (rows : list record) :
  extract c d = Ok rows ->
  Forall (fun r => dict_keys r = fields_of c
                   /\ wrong_fields (fields_of c) r = []
                   /\ dict_to_list (fields_of c) r = Ok (row_cells (fields_of c) r)) rows
  /\ length session_fields = 12%nat
  /\ length speaker_fields = 15%nat
  /\ length relationship_fields = 2%nat.
Proof.
  intros H. split; [|done].
  assert (Forall (fun r : record => dict_keys r = fields_of c) rows) as Hkeys.
  { destruct c; simpl in H |- *.
    - by apply (extract_sessions_keys d).
    - by apply (extract_speakers_keys d).
    - by apply (extract_session_speakers_keys d). }
  eapply Forall_impl; [exact Hkeys|]. intros r Hr.
  assert (wrong_fields (fields_of c) r = []) as Hw.
  { rewrite <- Hr. apply wrong_fields_own_keys. }
  split; [done|]. split; [done|]. unfold dict_to_list. by rewrite Hw.
Qed.

(** ** Optional members *)

Ltac inv_row H :=
  inv_bind H; injection H as <-;
  repeat match goal with
    | E : py_get (JObject _) _ _ = Ok _ |- _ => apply py_get_object in E; subst
    end.

Lemma row_of_optional (c : category) (o : dict value) (r : record) (k : string) :
  row_of c (JObject o) = Ok r -> k ∈ optional_scalars c ->
  dict_lookup k r = Some (default (JString "") (dict_lookup k o)).
Proof.
  intros H Hk. destruct c; simpl in H, Hk.
  - unfold session_row in H. inv_row H.
    repeat (apply elem_of_cons in Hk as [->|Hk]; [reflexivity|]).
    by apply elem_of_nil in Hk.
  - unfold speaker_row in H. inv_row H.
    repeat (apply elem_of_cons in Hk as [->|Hk]; [reflexivity|]).
    by apply elem_of_nil in Hk.
  - by apply elem_of_nil in Hk.
Qed.

(** C2 (as the code has it): for an optional scalar member [k] of a session
    or speaker that is extracted, the record always has the key [k]; it
    holds the empty string when the member is absent, and [None] (not the
    empty string) when the member is null, since [.get(k, '')] only
    defaults an absent key.  The writer turns both into an empty column, so
    the file shows neither a missing column nor the text of a null. *)
Theorem optional_scalar_gives_empty_column
    (c : category) (o : dict value) (r : record) (k : string) (i : nat) :
  row_of c (JObject o) = Ok r ->
  k ∈ optional_scalars c ->
  fields_of c !! i = Some k ->
  (dict_lookup k o = None -> dict_lookup k r = Some (JString ""))
  /\ (dict_lookup k o = Some JNull -> dict_lookup k r = Some JNull)
  /\ (dict_lookup k o = None \/ dict_lookup k o = Some JNull ->
      row_text (fields_of c) r !! i = Some ""
      /\ length (row_text (fields_of c) r) = length (fields_of c)).
Proof.
  intros H Hk Hi. pose proof (row_of_optional c o r k H Hk) as Hr.
  split; [|split].
  - intros Ho. by rewrite Hr, Ho.
  - intros Ho. by rewrite Hr, Ho.
  - intros Ho. split.
    + unfold row_text, row_cells. rewrite !lookup_map, Hi. simpl. rewrite Hr.
      by destruct Ho as [-> | ->].
    + unfold row_text, row_cells. by rewrite !length_map.
Qed.

(** ** List-valued members *)

Lemma map_result_as_str (items : list string) :
  map_result as_str (map JString items) = Ok items.
Proof. induction items as [|x l IH]; simpl; [done | by rewrite IH]. Qed.

Lemma joined_str_list (o : dict value) (k : string) (items : list string) :
  dict_lookup k o = Some (JList (map JString items)) -> items <> [] ->
  joined (JObject o) k = Ok (JString (String.concat "|" items)).
Proof.
  intros Ho Hne. unfold joined, py_get. rewrite Ho. simpl.
  destruct items as [|x l]; [done|]. simpl.
  unfold py_join. cbn [py_iter bind]. change (JString x :: map JString l) with (map JString (x :: l)).
  by rewrite map_result_as_str.
Qed.

Lemma row_of_list_field (c : category) (o : dict value) (r : record) (k : string) :
  row_of c (JObject o) = Ok r -> k ∈ list_fields c ->
  exists v, joined (JObject o) k = Ok v /\ dict_lookup k r = Some v.
Proof.
  intros H Hk. destruct c; simpl in H, Hk.
  - unfold session_row in H. inv_row H.
    repeat (apply elem_of_cons in Hk as [->|Hk]; [by eexists|]).
    by apply elem_of_nil in Hk.
  - unfold speaker_row in H. inv_row H.
    repeat (apply elem_of_cons in Hk as [->|Hk]; [by eexists|]).
    by apply elem_of_nil in Hk.
  - by apply elem_of_nil in Hk.
Qed.

Lemma split_on_no_sep (sep : ascii) (s : string) :
  has_char sep s = false -> split_on sep s = [s].
Proof.
  induction s as [|c s IH]; simpl; [done|].
  intros [Hc Hs]%orb_false_elim. by rewrite Hc, IH.
Qed.

Lemma split_on_app (sep : ascii) (x rest : string) :
  has_char sep x = false ->
  split_on sep (x +:+ String sep rest) = x :: split_on sep rest.
Proof.
  induction x as [|c x IH]; intros Hx.
  - change ("" +:+ String sep rest) with (String sep rest). simpl.
    by rewrite Ascii.eqb_refl.
  - simpl in Hx. apply orb_false_elim in Hx as [Hc Hx].
    rewrite append_cons. simpl. by rewrite Hc, IH.
Qed.

Lemma split_on_concat (sep : ascii) (items : list string) :
  items <> [] -> Forall (fun s => has_char sep s = false) items ->
  split_on sep (String.concat (String sep "") items) = items.
Proof.
  intros Hne H. induction H as [|x l Hx Hl IH]; [done|].
  destruct l as [|y l].
  - simpl. by apply split_on_no_sep.
  - change (String.concat (String sep "") (x :: y :: l))
      with (x +:+ String sep (String.concat (String sep "") (y :: l))).
    rewrite split_on_app by done. f_equal. by apply IH.
Qed.

(** C6 (as the code has it): for a non-empty list of strings none of which
    contains the vertical bar, held by [tags], [expertise] or
    [achievements], the record holds the items joined by the bar, and
    splitting that text on the bar gives the list back.  (The empty list is
    written as the empty string, like a list holding one empty string.) *)
Theorem joined_list_splits_back
    (c : category) (o : dict value) (r : record) (k : string) (items : list string) :
  row_of c (JObject o) = Ok r ->
  k ∈ list_fields c ->
  dict_lookup k o = Some (JList (map JString items)) ->
  items <> [] ->
  Forall (fun s => has_char "|" s = false) items ->
  exists text, dict_lookup k r = Some (JString text)
               /\ text = String.concat "|" items
               /\ split_on "|" text = items.
Proof.
  intros H Hk Ho Hne Hbar.
  destruct (row_of_list_field c o r k H Hk) as (v & Hv & Hr).
  rewrite (joined_str_list o k items Ho Hne) in Hv. injection Hv as <-.
  eexists. split; [done|]. split; [done|]. by apply split_on_concat.
Qed.

(** ** The run as a whole *)

Lemma convert_plan (d : value) (fs : files) :
  convert d fs = ((plan d).1, write_all (plan d).2 fs).
Proof.
  unfold convert, plan, io_bind, io_lift.
  destruct (print_metadata d) as [[]|e]; [|done].
  destruct (extract_sessions d) as [r1|e] eqn:E1; [|done].
  rewrite write_csv_written.
  destruct (written session_fields r1).1 as [[]|e]; [|done].
  destruct (extract_speakers d) as [r2|e] eqn:E2; [|done].
  rewrite write_csv_written.
  destruct (written speaker_fields r2).1 as [[]|e]; [|done].
  destruct (extract_session_speakers d) as [r3|e] eqn:E3; [|done].
  by rewrite write_csv_written.
Qed.

Ltac run_plan d :=
  unfold plan;
  destruct (print_metadata d) as [[]|?];
  [destruct (extract_sessions d) as [?r|?];
   [destruct (written session_fields _) as [[[]|?] ?t]; cbn [fst snd];
    [destruct (extract_speakers d) as [?r|?];
     [destruct (written speaker_fields _) as [[[]|?] ?t]; cbn [fst snd];
      [destruct (extract_session_speakers d) as [?r|?];
       [destruct (written relationship_fields _) as [? ?t]; cbn [fst snd]|]|]|]|]|]|].

Lemma plan_paths (d : value) : (plan d).2.*1 ⊆ output_paths.
Proof.
  unfold output_paths. intros p. run_plan d; simpl; intros Hp;
    repeat (apply elem_of_cons in Hp as [->|Hp]; [by repeat constructor|]);
    by apply elem_of_nil in Hp.
Qed.

Lemma plan_Ok_paths (d : value) : (plan d).1 = Ok tt -> (plan d).2.*1 = output_paths.
Proof. unfold output_paths. by run_plan d. Qed.

Lemma write_all_frame (ws : list (string * string)) (fs : files) (p : string) :
  p ∉ ws.*1 -> write_all ws fs !! p = fs !! p.
Proof.
  revert fs. induction ws as [|[q text] ws IH]; intros fs Hp; [done|].
  simpl in *. apply not_elem_of_cons in Hp as [Hne Hp].
  rewrite IH by done. by apply lookup_insert_ne.
Qed.

(** The files written do not depend on what the disk held. *)
Lemma write_all_agree (ws : list (string * string)) (fs fs' : files) :
  (forall p, p ∉ ws.*1 -> fs !! p = fs' !! p) -> write_all ws fs = write_all ws fs'.
Proof.
  revert fs fs'. induction ws as [|[q text] ws IH]; intros fs fs' H.
  - apply map_eq. intros p. apply H. apply not_elem_of_nil.
  - simpl. apply IH. intros p Hp.
    destruct (decide (q = p)) as [->|Hne].
    + by rewrite !lookup_insert_eq.
    + rewrite !lookup_insert_ne by done. apply H. simpl.
      by apply not_elem_of_cons.
Qed.

Lemma write_all_written (ws : list (string * string)) (fs fs' : files) (p : string) :
  p ∈ ws.*1 -> write_all ws fs !! p = write_all ws fs' !! p.
Proof.
  revert fs fs'. induction ws as [|[q text] ws IH]; intros fs fs' Hp.
  - by apply elem_of_nil in Hp.
  - simpl in *. destruct (decide (p ∈ ws.*1)) as [Hin|Hout]; [by apply IH|].
    apply elem_of_cons in Hp as [->|Hp]; [|done].
    by rewrite !write_all_frame, !lookup_insert_eq.
Qed.

Lemma write_all_twice (ws : list (string * string)) (fs : files) :
  write_all ws (write_all ws fs) = write_all ws fs.
Proof. apply write_all_agree. intros p Hp. by apply write_all_frame. Qed.

Lemma json_file_not_output : json_file ∉ output_paths.
Proof.
  unfold output_paths. intros H.
  repeat (apply elem_of_cons in H as [H|H];
          [by apply String.eqb_neq in H; [|vm_compute]|]).
  by apply elem_of_nil in H.
Qed.

Lemma sessions_csv_ne_speakers_csv : sessions_csv <> speakers_csv.
Proof. by apply String.eqb_neq. Qed.

Lemma sessions_csv_ne_session_speakers_csv : sessions_csv <> session_speakers_csv.
Proof. by apply String.eqb_neq. Qed.

Lemma speakers_csv_ne_session_speakers_csv : speakers_csv <> session_speakers_csv.
Proof. by apply String.eqb_neq. Qed.

Ltac read_disk :=
  repeat first
    [ rewrite lookup_insert_eq
    | rewrite lookup_insert_ne by (assumption || (apply not_eq_sym; assumption)) ].

Lemma main_unfold (fs : files) :
  main fs =
  match fs !! json_file with
  | None => (Raise FileNotFoundError, fs)
  | Some text =>
      match json_loads text with
      | Some d => convert d fs
      | None => (Raise JSONDecodeError, fs)
      end
  end.
Proof.
  unfold main, io_bind, load_json_data.
  destruct (fs !! json_file) as [text|]; [|done].
  by destruct (json_loads text).
Qed.

(** C7: the outcome of a run and, when it succeeds, the contents of the
    three output files are determined by the text of the input file alone,
    whatever else the disk holds; and a second run on the disk the first
    one left changes nothing: same outcome, same files. *)
Theorem main_deterministic (text : string) (fs fs' : files) :
  let run := fun disk : files => main (<[json_file := text]> disk) in
  (run fs).1 = (run fs').1
  /\ (forall p, p ∈ output_paths -> (run fs).1 = Ok tt ->
        (run fs).2 !! p = (run fs').2 !! p)
  /\ main (run fs).2 = run fs.
Proof.
  simpl. rewrite !main_unfold, !lookup_insert_eq.
  destruct (json_loads text) as [d|] eqn:Hd.
  - rewrite !convert_plan. simpl. split; [done|]. split.
    + intros p Hp Hok. apply write_all_written.
      by rewrite plan_Ok_paths.
    + rewrite write_all_frame, lookup_insert_eq, Hd.
      * by rewrite convert_plan, write_all_twice.
      * intros H. by apply json_file_not_output, (plan_paths d).
  - simpl. split; [done|]. split; [done|].
    by rewrite lookup_insert_eq, Hd.
Qed.

(** C8: when the metadata summary passes, the sessions are extracted and
    written, and the speakers extraction raises, the run ends with that
    exception; [sessions.csv] holds its complete text (read back: the
    header and every session), and neither [speakers.csv] nor
    [session_speakers.csv] is touched. *)
Theorem speakers_failure_keeps_sessions_csv
    (d : value) (sessions : list record) (e : exn) (fs : files) :
  print_metadata d = Ok tt ->
  extract_sessions d = Ok sessions ->
  (write_csv sessions_csv sessions session_fields fs).1 = Ok tt ->
  extract_speakers d = Raise e ->
  convert d fs = (Raise e, <[sessions_csv := csv_text session_fields sessions]> fs)
  /\ (convert d fs).2 !! sessions_csv = Some (csv_text session_fields sessions)
  /\ csv_records (csv_text session_fields sessions)
     = session_fields :: map (row_text session_fields) sessions
  /\ (convert d fs).2 !! speakers_csv = fs !! speakers_csv
  /\ (convert d fs).2 !! session_speakers_csv = fs !! session_speakers_csv.
Proof.
  intros Hm H1 Hw H2. rewrite write_csv_written in Hw. simpl in Hw.
  apply written_Ok in Hw as (_ & _ & Hw).
  assert (convert d fs
          = (Raise e, <[sessions_csv := csv_text session_fields sessions]> fs)) as ->.
  { rewrite convert_plan. unfold plan. by rewrite Hm, H1, Hw, H2. }
  pose proof sessions_csv_ne_speakers_csv.
  pose proof sessions_csv_ne_session_speakers_csv.
  simpl. rewrite csv_records_text. repeat split; by read_disk.
Qed.

(** ** Documents and paths *)

Lemma json_path_cons (d : value) (k : string) (rest : list string) (v : value) :
  json_path d (k :: rest) = Some v <->
  exists x, py_getitem d k = Ok x /\ json_path x rest = Some v.
Proof.
  simpl. unfold py_getitem. destruct d; try (split; [done | by intros (x & [=] & _)]).
  destruct (dict_lookup k members) as [x|].
  - split; [by exists x | by intros (x' & [= <-] & H)].
  - split; [done | by intros (x & [=] & _)].
Qed.

Ltac same_results :=
  repeat match goal with
         | E1 : ?t = Ok ?a, E2 : ?t = Ok ?b |- _ => rewrite E1 in E2; injection E2 as <-
         end.

Lemma print_metadata_needs (d : value) (p : list string) :
  print_metadata d = Ok tt -> p ∈ ["metadata"] :: metadata_paths -> is_Some (json_path d p).
Proof.
  unfold print_metadata. intros H Hp. inv_bind H. same_results.
  assert (forall (x y : value) (k : string), py_getitem x k = Ok y ->
            forall rest, json_path x (k :: rest) = json_path y rest) as Hstep.
  { intros x y k Hxy rest. apply py_getitem_Ok in Hxy as (o & -> & Ho).
    simpl. by rewrite Ho. }
  unfold metadata_paths in Hp.
  repeat (apply elem_of_cons in Hp as [->|Hp];
          [repeat (erewrite Hstep by eassumption); by eexists|]).
  by apply elem_of_nil in Hp.
Qed.

(** C10: a document that lacks the [metadata] key, or [exportedAt] in it,
    or one of the three counts, makes the metadata summary raise; the run
    ends there with that exception, before any extraction, and the disk is
    as it was: none of the three files is written. *)
Theorem missing_metadata_aborts (d : value) (p : list string) (fs : files) :
  p ∈ ["metadata"] :: metadata_paths ->
  json_path d p = None ->
  exists e, print_metadata d = Raise e
            /\ plan d = (Raise e, [])
            /\ convert d fs = (Raise e, fs).
Proof.
  intros Hp Hnone. destruct (print_metadata d) as [[]|e] eqn:Hm.
  - destruct (print_metadata_needs d p Hm Hp) as [v Hv]. congruence.
  - exists e. split; [done|].
    assert (plan d = (Raise e, [])) as Hplan by (unfold plan; by rewrite Hm).
    split; [done|]. by rewrite convert_plan, Hplan.
Qed.

(** ** Valid documents *)

Lemma has_keys_lookup (o : dict value) (ks : list string) (k : string) :
  has_keys o ks = true -> k ∈ ks -> exists v, dict_lookup k o = Some v.
Proof.
  unfold has_keys. intros H Hk. rewrite forallb_forall in H.
  specialize (H k (proj1 (list_elem_of_In _ _) Hk)).
  apply bool_decide_eq_true in H as [v Hv]. by exists v.
Qed.

Lemma map_result_as_str_total (items : list value) :
  forallb is_str items = true -> exists strs, map_result as_str items = Ok strs.
Proof.
  induction items as [|v l IH]; simpl; [by eexists|].
  intros [Hv Hl]%andb_true_iff. destruct v; try done.
  destruct (IH Hl) as [strs ->]. by eexists.
Qed.

Lemma joined_total (o : dict value) (k : string) :
  str_list_member o k = true -> exists v, joined (JObject o) k = Ok v.
Proof.
  unfold str_list_member, joined, py_get.
  destruct (dict_lookup k o) as [v|]; simpl; [|by eexists].
  destruct v; try done; simpl; [by eexists|].
  intros H. destruct items as [|x l]; simpl; [by eexists|].
  unfold py_join. cbn [py_iter bind].
  destruct (map_result_as_str_total _ H) as [strs ->]. by eexists.
Qed.

Ltac use_key o ks k :=
  let v := fresh "v" in
  let Hv := fresh "Hv" in
  destruct (has_keys_lookup o ks k) as [v Hv];
  [assumption | repeat constructor | rewrite Hv; cbn [bind]].

Lemma valid_item_row (c : category) (v : value) :
  valid_item c v = true -> exists r, row_of c v = Ok r.
Proof.
  destruct c; simpl; destruct v as [| | | | | |o]; try done.
  - intros [Hk Ht]%andb_true_iff.
    unfold session_row, py_getitem. cbn [py_get bind].
    use_key o session_required "id". use_key o session_required "title".
    use_key o session_required "startTime". use_key o session_required "endTime".
    destruct (joined_total o "tags" Ht) as [t ->]. cbn [bind].
    use_key o session_required "createdAt". by eexists.
  - intros [[Hk He]%andb_true_iff Ha]%andb_true_iff.
    unfold speaker_row, py_getitem. cbn [py_get bind].
    use_key o speaker_required "id". use_key o speaker_required "name".
    destruct (joined_total o "expertise" He) as [t1 ->]. cbn [bind].
    destruct (joined_total o "achievements" Ha) as [t2 ->]. cbn [bind].
    use_key o speaker_required "createdAt". by eexists.
  - intros Hk. unfold relationship_row, py_getitem.
    use_key o relationship_fields "sessionId".
    use_key o relationship_fields "speakerId". by eexists.
Qed.

Lemma extract_unfold (c : category) (d : value) (items : list value) :
  json_path d ["data"; array_key c] = Some (JList items) ->
  extract c d = map_result (row_of c) items.
Proof.
  intros H. apply json_path_cons in H as (x & Hx & H).
  apply json_path_cons in H as (y & Hy & [= ->]).
  destruct c; simpl in *.
  - unfold extract_sessions. by rewrite Hx; simpl; rewrite Hy.
  - unfold extract_speakers. by rewrite Hx; simpl; rewrite Hy.
  - unfold extract_session_speakers. by rewrite Hx; simpl; rewrite Hy.
Qed.

Lemma valid_array_extract (c : category) (d : value) :
  valid_array (valid_item c) d (array_key c) = true ->
  exists items rows, json_path d ["data"; array_key c] = Some (JList items)
                     /\ extract c d = Ok rows.
Proof.
  unfold valid_array.
  destruct (json_path d ["data"; array_key c]) as [[| | | | |items|]|] eqn:Hp; try done.
  intros H. rewrite forallb_forall in H.
  destruct (map_result_total (row_of c) items) as [rows Hrows].
  { apply Forall_forall. intros v Hv. apply valid_item_row, H.
    by apply list_elem_of_In. }
  exists items, rows. split; [done|]. by rewrite (extract_unfold c d items).
Qed.

Lemma sessions_csv_written (d : value) (rows : list record) (fs : files) :
  print_metadata d = Ok tt -> extract_sessions d = Ok rows ->
  (convert d fs).2 !! sessions_csv = Some (written session_fields rows).2.
Proof.
  intros Hm H1. rewrite convert_plan. unfold plan. rewrite Hm, H1.
  pose proof sessions_csv_ne_speakers_csv.
  pose proof sessions_csv_ne_session_speakers_csv.
  destruct (written session_fields rows) as [[[]|?] t1]; cbn [fst snd].
  - destruct (extract_speakers d) as [r2|?]; cbn [fst snd write_all]; [|by read_disk].
    destruct (written speaker_fields r2) as [[[]|?] t2]; cbn [fst snd write_all];
      [|by read_disk].
    destruct (extract_session_speakers d) as [r3|?]; cbn [fst snd write_all];
      by read_disk.
  - cbn [write_all]. by read_disk.
Qed.

(** A run that succeeds has passed every step, and has written each file
    in full. *)
Lemma plan_Ok (d : value) :
  (plan d).1 = Ok tt ->
  print_metadata d = Ok tt
  /\ exists r1 r2 r3,
       extract_sessions d = Ok r1 /\ extract_speakers d = Ok r2
       /\ extract_session_speakers d = Ok r3
       /\ Forall (writable session_fields) r1
       /\ Forall (writable speaker_fields) r2
       /\ Forall (writable relationship_fields) r3
       /\ (plan d).2 = [(sessions_csv, csv_text session_fields r1);
                        (speakers_csv, csv_text speaker_fields r2);
                        (session_speakers_csv, csv_text relationship_fields r3)].
Proof.
  unfold plan.
  destruct (print_metadata d) as [[]|]; [|done].
  destruct (extract_sessions d) as [r1|]; [|done].
  destruct (written session_fields r1).1 as [[]|] eqn:W1; [|done].
  destruct (extract_speakers d) as [r2|]; [|done].
  destruct (written speaker_fields r2).1 as [[]|] eqn:W2; [|done].
  destruct (extract_session_speakers d) as [r3|]; [|done].
  cbn [fst snd]. intros W3.
  apply written_Ok in W1 as (_ & ? & ->). apply written_Ok in W2 as (_ & ? & ->).
  apply written_Ok in W3 as (_ & ? & ->).
  split; [done|]. by exists r1, r2, r3.
Qed.

Lemma plan_Ok_file (d : value) (fs : files) (c : category) (rows : list record) :
  (plan d).1 = Ok tt -> extract c d = Ok rows ->
  Forall (writable (fields_of c)) rows
  /\ write_all (plan d).2 fs !! output_path c = Some (csv_text (fields_of c) rows).
Proof.
  intros (_ & r1 & r2 & r3 & E1 & E2 & E3 & W1 & W2 & W3 & ->)%plan_Ok He.
  pose proof sessions_csv_ne_speakers_csv.
  pose proof sessions_csv_ne_session_speakers_csv.
  pose proof speakers_csv_ne_session_speakers_csv.
  destruct c; simpl in He |- *.
  - rewrite E1 in He. injection He as <-. split; [done | by read_disk].
  - rewrite E2 in He. injection He as <-. split; [done | by read_disk].
  - rewrite E3 in He. injection He as <-. split; [done | by read_disk].
Qed.

(** On a valid document every extraction succeeds, one record per element
    in the order of the array. *)
Lemma valid_document_extract (d : value) (c : category) :
  valid_document d = true ->
  exists (items : list value) (rows : list record),
    json_path d ["data"; array_key c] = Some (JList items)
    /\ extract c d = Ok rows
    /\ Forall2 (fun item r => row_of c item = Ok r) items rows.
Proof.
  unfold valid_document.
  intros [[[Hm H1]%andb_true_iff H2]%andb_true_iff H3]%andb_true_iff.
  assert (valid_array (valid_item c) d (array_key c) = true) as Hc by by destruct c.
  destruct (valid_array_extract c d Hc) as (items & rows & Hp & He).
  exists items, rows. split; [done|]. split; [done|].
  rewrite (extract_unfold c d items Hp) in He. by apply map_result_Ok.
Qed.

(** C4 (as the code has it): on a valid document each extractor returns
    one flat record per element of its array, in the order of the array,
    record [i] made from element [i].  When the run succeeds, each file,
    read back, holds the header and then these records: it has one record
    more than the array has elements, the first is the field list, and the
    record after the header and [i] others is the text of the flat record
    extracted from element [i]. *)
Theorem rows_follow_input (d : value) (fs : files) :
  valid_document d = true ->
  (forall c : category,
     exists (items : list value) (rows : list record),
       json_path d ["data"; array_key c] = Some (JList items)
       /\ extract c d = Ok rows
       /\ length rows = length items
       /\ forall (i : nat) (item : value), items !! i = Some item ->
            exists r, row_of c item = Ok r /\ rows !! i = Some r)
  /\ ((convert d fs).1 = Ok tt ->
      forall c : category,
        exists (items : list value) (text : string),
          json_path d ["data"; array_key c] = Some (JList items)
          /\ (convert d fs).2 !! output_path c = Some text
          /\ length (csv_records text) = S (length items)
          /\ csv_records text !! 0%nat = Some (fields_of c)
          /\ forall (i : nat) (item : value), items !! i = Some item ->
               exists r, row_of c item = Ok r
                         /\ csv_records text !! S i = Some (row_text (fields_of c) r)).
Proof.
  intros Hvalid. split.
  - intros c. destruct (valid_document_extract d c Hvalid) as (items & rows & Hp & He & Hrows).
    exists items, rows. split; [done|]. split; [done|].
    split; [symmetry; by eapply Forall2_length|].
    intros i item Hi. destruct (Forall2_lookup_l _ _ _ _ _ Hrows Hi) as (r & Hr & Hrow).
    by exists r.
  - rewrite convert_plan. simpl. intros Hok c.
    destruct (valid_document_extract d c Hvalid) as (items & rows & Hp & He & Hrows).
    destruct (plan_Ok_file d fs c rows Hok He) as [_ Hfile].
    exists items, (csv_text (fields_of c) rows). split; [done|]. split; [done|].
    rewrite csv_records_text. split; [|split; [done|]].
    + simpl. rewrite length_map. f_equal. symmetry. by eapply Forall2_length.
    + intros i item Hi.
      destruct (Forall2_lookup_l _ _ _ _ _ Hrows Hi) as (r & Hr & Hrow).
      exists r. split; [done|]. simpl. by rewrite lookup_map, Hr.
Qed.

(** C5: for a document whose metadata summary passes and whose sessions
    array is the one session [s1] of the scenario, the extractor returns
    one record, and [sessions.csv] is the header line followed by exactly
    the line [s1,Talk,,T0,T1,,,,ai|cloud,,,C0]: read back, the header and
    one record, its absent optional fields empty and its tags joined by the
    bar. *)
Theorem talk_scenario (d : value) (fs : files) :
  print_metadata d = Ok tt ->
  json_path d ["data"; "sessions"] = Some (JList [talk_session]) ->
  (exists row, extract_sessions d = Ok [row])
  /\ (convert d fs).2 !! sessions_csv = Some talk_csv
  /\ talk_csv = talk_header +:+ lineterminator +:+ talk_line +:+ lineterminator
  /\ csv_records talk_csv
     = [session_fields;
        ["s1"; "Talk"; ""; "T0"; "T1"; ""; ""; ""; "ai|cloud"; ""; ""; "C0"]].
Proof.
  intros Hm Hp. pose proof (extract_unfold Sessions d _ Hp) as He.
  simpl in He. split; [by eexists|]. split; [|by split].
  by rewrite (sessions_csv_written d _ fs Hm He).
Qed.

(** ** Missing required members *)

Lemma row_needs_required (c : category) (o : dict value) (r : record) (k : string) :
  row_of c (JObject o) = Ok r -> k ∈ required_fields c -> is_Some (dict_lookup k o).
Proof.
  intros H Hk.
  assert (forall k' v, py_getitem (JObject o) k' = Ok v -> is_Some (dict_lookup k' o)) as Hget.
  { intros k' v (o' & [= <-] & Hv)%py_getitem_Ok. by eexists. }
  destruct c; simpl in H, Hk.
  - unfold session_row in H. inv_bind H.
    repeat (apply elem_of_cons in Hk as [->|Hk]; [by eapply Hget|]).
    by apply elem_of_nil in Hk.
  - unfold speaker_row in H. inv_bind H.
    repeat (apply elem_of_cons in Hk as [->|Hk]; [by eapply Hget|]).
    by apply elem_of_nil in Hk.
  - unfold relationship_row in H. inv_bind H.
    repeat (apply elem_of_cons in Hk as [->|Hk]; [by eapply Hget|]).
    by apply elem_of_nil in Hk.
Qed.

Lemma session_row_KeyError (o : dict value) (k : string) :
  k ∈ session_required ->
  dict_lookup k o = None ->
  (forall k', k' ∈ session_required -> k' <> k -> is_Some (dict_lookup k' o)) ->
  str_list_member o "tags" = true ->
  session_row (JObject o) = Raise (KeyError k).
Proof.
  intros Hk Hnone Hothers Htags.
  destruct (joined_total o "tags" Htags) as [t Ht].
  unfold session_row, py_getitem. cbn [py_get]. rewrite Ht.
  unfold session_required in Hk.
  repeat (apply elem_of_cons in Hk as [->|Hk];
    [repeat (match goal with
             | |- context [dict_lookup ?k' o] =>
                 first [ rewrite Hnone; reflexivity
                       | let v := fresh "v" in
                         let Hv := fresh "Hv" in
                         destruct (Hothers k') as [v Hv];
                         [repeat constructor | discriminate | rewrite Hv; cbn [bind]] ]
             end)|]).
  by apply elem_of_nil in Hk.
Qed.

(** C3 (as the code has it): when a session of the array is an object that
    lacks a required member, the extractor raises and the run ends with an
    exception before [sessions.csv] is opened: the disk is as it was.  When
    the sessions before it are extracted, it lacks no other required member
    and its tags are well formed, the exception is [KeyError] carrying the
    missing key, and nothing else: no position, no identifier. *)
Theorem missing_required_session_field
    (d : value) (sessions : list value) (i : nat) (o : dict value) (k : string)
    (fs : files) :
  json_path d ["data"; "sessions"] = Some (JList sessions) ->
  sessions !! i = Some (JObject o) ->
  k ∈ session_required ->
  dict_lookup k o = None ->
  (exists e, extract_sessions d = Raise e)
  /\ (exists e, convert d fs = (Raise e, fs))
  /\ (Forall (fun s => exists r, session_row s = Ok r) (take i sessions) ->
      (forall k', k' ∈ session_required -> k' <> k -> is_Some (dict_lookup k' o)) ->
      str_list_member o "tags" = true ->
      extract_sessions d = Raise (KeyError k)).
Proof.
  intros Hp Hi Hk Hnone.
  pose proof (extract_unfold Sessions d sessions Hp) as He. simpl in He.
  assert (exists e, extract_sessions d = Raise e) as [e Hfail].
  { rewrite He. destruct (map_result session_row sessions) as [rows|e] eqn:E; [|by eexists].
    apply map_result_Ok in E.
    destruct (Forall2_lookup_l _ _ _ _ _ E Hi) as (r & _ & Hr).
    destruct (row_needs_required Sessions o r k Hr Hk) as [v Hv]. congruence. }
  split; [by eexists|]. split.
  - rewrite convert_plan. unfold plan. rewrite Hfail.
    destruct (print_metadata d); by eexists.
  - intros Hbefore Hothers Htags. rewrite He. apply map_result_Raise.
    exists i, (JObject o). split; [done|]. split; [|done].
    by apply session_row_KeyError.
Qed.

(** ** Further properties of the script *)

(** X1: a record with a field outside the field list makes the writer raise
    [ValueError]; when the header and the records before it are written,
    the file is left with the header and these records. *)
Theorem write_csv_rejects_extra_field
    (filename : string) (before : list record) (r : record) (after : list record)
    (fieldnames : list string) (fs : files) :
  existsb has_surrogate fieldnames = false ->
  Forall (writable fieldnames) before ->
  ~ dict_keys r ⊆ fieldnames ->
  write_csv filename (before ++ r :: after) fieldnames fs
  = (Raise ValueError, <[filename := csv_text fieldnames before]> fs)
  /\ csv_records (csv_text fieldnames before)
     = fieldnames :: map (row_text fieldnames) before.
Proof.
  intros Hh Hbefore Hr. split; [|apply csv_records_text].
  assert (~ writable fieldnames r) as Hw by (by intros [? _]).
  rewrite write_csv_written, written_stop, writerow_raise by done.
  by rewrite bool_decide_eq_false_2.
Qed.

(** X21: a record with a cell that [str()] refuses (an [int] of more than
    4300 digits) makes the writer raise [ValueError], and a record with a
    cell whose text holds a lone surrogate makes it raise
    [UnicodeEncodeError]; when the header and the records before it are
    written, the file is left with the header and these records. *)
Theorem write_csv_stops_at_unwritable_cell
    (filename : string) (before : list record) (r : record) (after : list record)
    (fieldnames : list string) (fs : files) :
  existsb has_surrogate fieldnames = false ->
  Forall (writable fieldnames) before ->
  dict_keys r ⊆ fieldnames ->
  unprintable fieldnames r || unencodable fieldnames r = true ->
  write_csv filename (before ++ r :: after) fieldnames fs
  = (Raise (if unprintable fieldnames r then ValueError else UnicodeEncodeError),
     <[filename := csv_text fieldnames before]> fs)
  /\ csv_records (csv_text fieldnames before)
     = fieldnames :: map (row_text fieldnames) before.
Proof.
  intros Hh Hbefore Hk Hr. split; [|apply csv_records_text].
  assert (~ writable fieldnames r) as Hw.
  { intros (_ & Hp & He). by rewrite Hp, He in Hr. }
  rewrite write_csv_written, written_stop, writerow_raise by done.
  rewrite bool_decide_eq_true_2 by done. by destruct (unprintable fieldnames r).
Qed.

(** *** What one element becomes *)

Lemma row_of_required (c : category) (o : dict value) (r : record) (k : string) :
  row_of c (JObject o) = Ok r -> k ∈ required_fields c ->
  dict_lookup k r = dict_lookup k o.
Proof.
  intros H Hk. destruct c; simpl in H, Hk.
  - unfold session_row in H. inv_bind H. injection H as <-.
    repeat match goal with
           | E : py_getitem (JObject _) _ = Ok _ |- _ =>
               apply py_getitem_Ok in E as (? & [= <-] & E)
           end.
    repeat (apply elem_of_cons in Hk as [->|Hk]; [by symmetry|]).
    by apply elem_of_nil in Hk.
  - unfold speaker_row in H. inv_bind H. injection H as <-.
    repeat match goal with
           | E : py_getitem (JObject _) _ = Ok _ |- _ =>
               apply py_getitem_Ok in E as (? & [= <-] & E)
           end.
    repeat (apply elem_of_cons in Hk as [->|Hk]; [by symmetry|]).
    by apply elem_of_nil in Hk.
  - unfold relationship_row in H. inv_bind H. injection H as <-.
    repeat match goal with
           | E : py_getitem (JObject _) _ = Ok _ |- _ =>
               apply py_getitem_Ok in E as (? & [= <-] & E)
           end.
    repeat (apply elem_of_cons in Hk as [->|Hk]; [by symmetry|]).
    by apply elem_of_nil in Hk.
Qed.

(** X2: a required or optional scalar member that the element has is
    copied as it is, whatever its value (a number, a null, a nested
    object): the flat record holds the same value under the same key, and
    the column of that field holds the writer's text of that value. *)
Theorem present_member_copied_verbatim
    (c : category) (o : dict value) (r : record) (k : string) (v : value) (i : nat) :
  row_of c (JObject o) = Ok r ->
  k ∈ required_fields c ++ optional_scalars c ->
  dict_lookup k o = Some v ->
  fields_of c !! i = Some k ->
  dict_lookup k r = Some v
  /\ row_text (fields_of c) r !! i = Some (cell_text v).
Proof.
  intros H Hk Ho Hi.
  assert (dict_lookup k r = Some v) as Hr.
  { apply elem_of_app in Hk as [Hk|Hk].
    - by rewrite (row_of_required c o r k H Hk).
    - by rewrite (row_of_optional c o r k H Hk), Ho. }
  split; [done|]. unfold row_text, row_cells.
  by rewrite !lookup_map, Hi; simpl; rewrite Hr.
Qed.

(** X3: an extractor reads from an element the members named in its field
    list and nothing else: two elements that agree on those members give
    the same flat record, or raise the same exception, whatever other
    members they have. *)
Theorem other_members_ignored (c : category) (o o' : dict value) :
  (forall k, k ∈ fields_of c -> dict_lookup k o = dict_lookup k o') ->
  row_of c (JObject o) = row_of c (JObject o').
Proof.
  intros H. destruct c; simpl in *.
  - unfold session_row, joined, py_getitem, py_get.
    repeat match goal with
           | |- context [dict_lookup ?k o] => rewrite (H k) by (by repeat constructor)
           end.
    reflexivity.
  - unfold speaker_row, joined, py_getitem, py_get.
    repeat match goal with
           | |- context [dict_lookup ?k o] => rewrite (H k) by (by repeat constructor)
           end.
    reflexivity.
  - unfold relationship_row, py_getitem.
    repeat match goal with
           | |- context [dict_lookup ?k o] => rewrite (H k) by (by repeat constructor)
           end.
    reflexivity.
Qed.

(** *** List-valued members *)

Lemma joined_falsy (o : dict value) (k : string) :
  py_truthy (default JNull (dict_lookup k o)) = false ->
  joined (JObject o) k = Ok (JString "").
Proof. unfold joined, py_get. cbn [bind]. by intros ->. Qed.

(** X4: a list-valued member that is absent or falsy in Python's sense
    (null, an empty list, an empty string, zero, false, an empty object) is
    written as the empty string. *)
Theorem falsy_list_member_written_empty
    (c : category) (o : dict value) (r : record) (k : string) :
  row_of c (JObject o) = Ok r ->
  k ∈ list_fields c ->
  py_truthy (default JNull (dict_lookup k o)) = false ->
  dict_lookup k r = Some (JString "").
Proof.
  intros H Hk Hfalsy.
  destruct (row_of_list_field c o r k H Hk) as (v & Hv & Hr).
  rewrite (joined_falsy o k Hfalsy) in Hv. by injection Hv as <-.
Qed.

Lemma py_join_text (sep s : string) :
  py_join sep (JString s) = Ok (String.concat sep (code_points s)).
Proof. unfold py_join. cbn [py_iter bind]. by rewrite map_result_as_str. Qed.

Lemma joined_text (o : dict value) (k s : string) :
  dict_lookup k o = Some (JString s) ->
  joined (JObject o) k = Ok (JString (String.concat "|" (code_points s))).
Proof.
  intros Ho. unfold joined, py_get. rewrite Ho. cbn [default from_option id bind].
  destruct s as [|ch s]; [reflexivity|].
  change (py_truthy (JString (String ch s))) with true. cbn iota.
  by rewrite py_join_text.
Qed.

(** X5: a list-valued member that holds a string instead of a list raises
    nothing: [str.join] iterates over the string, and the member is written
    as its characters joined by the bar. *)
Theorem text_member_joined_by_character
    (c : category) (o : dict value) (k : string) (s : string) :
  k ∈ list_fields c ->
  dict_lookup k o = Some (JString s) ->
  joined (JObject o) k = Ok (JString (String.concat "|" (code_points s)))
  /\ forall r, row_of c (JObject o) = Ok r ->
       dict_lookup k r = Some (JString (String.concat "|" (code_points s))).
Proof.
  intros Hk Ho. split; [by apply joined_text|]. intros r H.
  destruct (row_of_list_field c o r k H Hk) as (v & Hv & Hr).
  rewrite (joined_text o k s Ho) in Hv. by injection Hv as <-.
Qed.

Lemma map_result_as_str_raise (items : list value) :
  forallb is_str items = false -> map_result as_str items = Raise TypeError.
Proof.
  induction items as [|v items IH]; [done|]. cbn [forallb map_result].
  destruct v; try done. cbn [is_str andb as_str bind].
  intros H. by rewrite IH.
Qed.

Lemma joined_Ok_or_TypeError (o : dict value) (k : string) :
  (exists v, joined (JObject o) k = Ok v) \/ joined (JObject o) k = Raise TypeError.
Proof.
  unfold joined, py_get. cbn [bind].
  destruct (py_truthy (default JNull (dict_lookup k o))); [|left; by eexists].
  unfold py_join.
  destruct (py_iter (default (JList []) (dict_lookup k o))) as [items|e] eqn:Hi.
  - cbn [bind]. destruct (map_result as_str items) as [strs|e] eqn:Hs.
    + left. by eexists.
    + right. cbn [bind]. f_equal.
      assert (forall l e', map_result as_str l = Raise e' -> e' = TypeError) as Hty.
      { induction l as [|x l IH]; [done|]. intros e'. cbn [map_result].
        destruct x; cbn [as_str bind]; try (by intros [= <-]).
        destruct (map_result as_str l) eqn:El; [done|].
        cbn [bind]. intros [= <-]. by apply IH. }
      by apply (Hty items).
  - right. cbn [bind]. f_equal.
    destruct (default (JList []) (dict_lookup k o)); simpl in Hi; congruence.
Qed.

Lemma joined_non_text_item (o : dict value) (k : string) (items : list value) :
  dict_lookup k o = Some (JList items) -> forallb is_str items = false ->
  joined (JObject o) k = Raise TypeError.
Proof.
  intros Ho Hitems. unfold joined, py_get. rewrite Ho. cbn [default from_option id bind].
  destruct items as [|x items]; [done|].
  change (py_truthy (JList (x :: items))) with true. cbn iota.
  unfold py_join. cbn [py_iter bind]. by rewrite map_result_as_str_raise.
Qed.

Ltac use_required o c k :=
  let v := fresh "v" in
  let Hv := fresh "Hv" in
  destruct (has_keys_lookup o (required_fields c) k) as [v Hv];
  [assumption | repeat constructor | rewrite Hv; cbn [bind]].

(** X6: a list-valued member that is a list with an item that is not a
    string makes the extraction of the element raise; when the element has
    its required members, the exception is [TypeError], raised by
    [str.join]. *)
Theorem non_text_list_item_raises
    (c : category) (o : dict value) (k : string) (items : list value) :
  k ∈ list_fields c ->
  dict_lookup k o = Some (JList items) ->
  forallb is_str items = false ->
  (exists e, row_of c (JObject o) = Raise e)
  /\ (has_keys o (required_fields c) = true -> row_of c (JObject o) = Raise TypeError).
Proof.
  intros Hk Ho Hitems.
  pose proof (joined_non_text_item o k items Ho Hitems) as Hj. split.
  - destruct (row_of c (JObject o)) as [r|e] eqn:Hrow; [|by eexists].
    destruct (row_of_list_field c o r k Hrow Hk) as (v & Hv & _). congruence.
  - intros Hreq. destruct c; simpl in Hk, Hreq |- *.
    + apply list_elem_of_singleton in Hk as ->.
      unfold session_row, py_getitem. cbn [py_get bind].
      use_required o Sessions "id". use_required o Sessions "title".
      use_required o Sessions "startTime". use_required o Sessions "endTime".
      by rewrite Hj.
    + unfold speaker_row, py_getitem. cbn [py_get bind].
      use_required o Speakers "id". use_required o Speakers "name".
      apply elem_of_cons in Hk as [->|Hk]; [by rewrite Hj|].
      apply list_elem_of_singleton in Hk as ->.
      destruct (joined_Ok_or_TypeError o "expertise") as [[v1 ->]| ->]; [|done].
      cbn [bind]. by rewrite Hj.
    + by apply elem_of_nil in Hk.
Qed.

Lemma concat_cons_cons (sep x y : string) (l : list string) :
  String.concat sep (x :: y :: l) = x +:+ sep +:+ String.concat sep (y :: l).
Proof. reflexivity. Qed.

Lemma concat_bar_merged (before after : list string) (a b : string) :
  String.concat "|" (before ++ (a +:+ "|" +:+ b) :: after)
  = String.concat "|" (before ++ a :: b :: after).
Proof.
  induction before as [|x before IH].
  - cbn [app]. rewrite concat_cons_cons. destruct after as [|y after].
    + reflexivity.
    + by rewrite !concat_cons_cons, !append_assoc.
  - cbn [app]. destruct before as [|x' before].
    + cbn [app] in *. by rewrite !concat_cons_cons, IH.
    + cbn [app] in *. by rewrite !concat_cons_cons, IH.
Qed.

(** X7: the bar is not escaped: an item that contains a bar is written
    exactly like the two items on either side of it, so the written text
    does not tell the two lists apart. *)
Theorem bar_in_item_not_escaped
    (c : category) (o1 o2 : dict value) (r1 r2 : record) (k : string)
    (before after : list string) (a b : string) :
  row_of c (JObject o1) = Ok r1 ->
  row_of c (JObject o2) = Ok r2 ->
  k ∈ list_fields c ->
  dict_lookup k o1 = Some (JList (map JString (before ++ (a +:+ "|" +:+ b) :: after))) ->
  dict_lookup k o2 = Some (JList (map JString (before ++ a :: b :: after))) ->
  dict_lookup k r1 = dict_lookup k r2
  /\ dict_lookup k r2
     = Some (JString (String.concat "|" (before ++ a :: b :: after))).
Proof.
  intros H1 H2 Hk Ho1 Ho2.
  destruct (row_of_list_field c o1 r1 k H1 Hk) as (v1 & Hv1 & ->).
  destruct (row_of_list_field c o2 r2 k H2 Hk) as (v2 & Hv2 & ->).
  rewrite (joined_str_list o1 k _ Ho1) in Hv1 by by destruct before.
  rewrite (joined_str_list o2 k _ Ho2) in Hv2 by by destruct before.
  injection Hv1 as <-. injection Hv2 as <-.
  by rewrite concat_bar_merged.
Qed.

(** *** What an extractor does with its array *)

Lemma extract_iter (c : category) (d v : value) :
  json_path d ["data"; array_key c] = Some v ->
  extract c d = (let* elems := py_iter v in map_result (row_of c) elems).
Proof.
  intros H. apply json_path_cons in H as (x & Hx & H).
  apply json_path_cons in H as (y & Hy & [= ->]).
  destruct c; simpl in *.
  - unfold extract_sessions. by rewrite Hx; simpl; rewrite Hy.
  - unfold extract_speakers. by rewrite Hx; simpl; rewrite Hy.
  - unfold extract_session_speakers. by rewrite Hx; simpl; rewrite Hy.
Qed.

Lemma row_of_non_object (c : category) (v : value) :
  is_object v = false -> row_of c v = Raise TypeError.
Proof. by destruct c, v. Qed.

Lemma code_points_cons (ch : ascii) (s : string) :
  exists x xs, code_points (String ch s) = x :: xs.
Proof.
  cbn [code_points]. destruct (starts_with_continuation s); [|by eexists _, _].
  destruct (code_points s); by eexists _, _.
Qed.

(** X8: when the array of an extractor is not a list, the extractor raises
    [TypeError], either because the value cannot be iterated or because
    the keys or characters it iterates over cannot be subscripted; except
    that an object without members or an empty string passes as an empty
    array and gives no record. *)
Theorem array_that_is_not_a_list (c : category) (d v : value) :
  json_path d ["data"; array_key c] = Some v ->
  is_list v = false ->
  extract c d = if empty_container v then Ok [] else Raise TypeError.
Proof.
  intros Hp Hv. rewrite (extract_iter c d v Hp).
  destruct v as [| | | |s|items|members]; try done.
  - destruct s as [|ch s]; [done|]. cbn [py_iter bind empty_container].
    destruct (code_points_cons ch s) as (x & xs & ->).
    cbn [map map_result]. by rewrite row_of_non_object.
  - destruct members as [|[k x] members]; [done|].
    cbn [py_iter bind dict_keys map map_result fst].
    by rewrite row_of_non_object.
Qed.

(** X9: when the array of an extractor cannot be reached, the extractor
    raises [KeyError] with the first key that is missing ([data], or the
    name of the array), or [TypeError] when the document or its [data]
    member is not an object. *)
Theorem array_that_is_missing (c : category) (d : value) :
  json_path d ["data"; array_key c] = None ->
  extract c d
  = Raise match d with
          | JObject o =>
              match dict_lookup "data" o with
              | None => KeyError "data"
              | Some (JObject _) => KeyError (array_key c)
              | Some _ => TypeError
              end
          | _ => TypeError
          end.
Proof.
  intros Hp.
  assert (extract c d
          = (let* x := py_getitem d "data" in
             let* arr := py_getitem x (array_key c) in
             let* elems := py_iter arr in map_result (row_of c) elems)) as ->
    by by destruct c.
  destruct d as [| | | | | |o]; try done.
  simpl in Hp |- *. destruct (dict_lookup "data" o) as [x|]; [|done].
  cbn [bind]. destruct x as [| | | | | |dd]; try done.
  simpl in Hp |- *. by destruct (dict_lookup (array_key c) dd).
Qed.

(** X10: an extractor stops at the first element it cannot extract and
    raises the exception of that element; the elements after it are not
    looked at, and no record is returned for the ones before it. *)
Theorem extraction_stops_at_first_failure
    (c : category) (d : value) (good : list value) (bad : value) (rest : list value)
    (e : exn) :
  json_path d ["data"; array_key c] = Some (JList (good ++ bad :: rest)) ->
  Forall (fun x => exists r, row_of c x = Ok r) good ->
  row_of c bad = Raise e ->
  extract c d = Raise e.
Proof.
  intros Hp Hgood Hbad. rewrite (extract_unfold c d _ Hp).
  apply map_result_Raise. exists (length good), bad.
  split; [by apply list_lookup_middle|]. split; [done|].
  by rewrite take_app_length.
Qed.

(** X11: an array element that is not an object (a string, a number, a
    null, a list) makes the extractor raise [TypeError], once the elements
    before it are extracted. *)
Theorem element_that_is_not_an_object
    (c : category) (d : value) (good : list value) (bad : value) (rest : list value) :
  json_path d ["data"; array_key c] = Some (JList (good ++ bad :: rest)) ->
  Forall (fun x => exists r, row_of c x = Ok r) good ->
  is_object bad = false ->
  extract c d = Raise TypeError.
Proof.
  intros Hp Hgood Hbad. rewrite (extract_unfold c d _ Hp).
  apply map_result_Raise. exists (length good), bad.
  split; [by apply list_lookup_middle|].
  split; [by apply row_of_non_object|]. by rewrite take_app_length.
Qed.

Ltac miss_key o Hnone Hothers :=
  repeat (match goal with
          | |- context [dict_lookup ?k' o] =>
              first [ rewrite Hnone; reflexivity
                    | let v := fresh "v" in
                      let Hv := fresh "Hv" in
                      destruct (Hothers k') as [v Hv];
                      [repeat constructor | discriminate | rewrite Hv; cbn [bind]] ]
          end).

Lemma row_of_KeyError (c : category) (o : dict value) (k : string) :
  k ∈ required_fields c ->
  dict_lookup k o = None ->
  (forall k', k' ∈ required_fields c -> k' <> k -> is_Some (dict_lookup k' o)) ->
  list_members_ok c o = true ->
  row_of c (JObject o) = Raise (KeyError k).
Proof.
  intros Hk Hnone Hothers Hlists. destruct c; simpl in Hk, Hothers, Hlists |- *.
  - apply session_row_KeyError; try done. by apply andb_true_iff in Hlists as [? _].
  - apply andb_true_iff in Hlists as [He [Ha _]%andb_true_iff].
    destruct (joined_total o "expertise" He) as [t1 Ht1].
    destruct (joined_total o "achievements" Ha) as [t2 Ht2].
    unfold speaker_row, py_getitem. cbn [py_get]. rewrite Ht1, Ht2.
    unfold speaker_required in Hk.
    repeat (apply elem_of_cons in Hk as [->|Hk]; [miss_key o Hnone Hothers|]).
    by apply elem_of_nil in Hk.
  - unfold relationship_row, py_getitem. unfold relationship_fields in Hk.
    repeat (apply elem_of_cons in Hk as [->|Hk]; [miss_key o Hnone Hothers|]).
    by apply elem_of_nil in Hk.
Qed.

(** X12: for speakers and relationships as for sessions, an element that
    lacks one required member makes the extractor raise [KeyError] with
    the key of that member, once the elements before it are extracted
    (its other required members present, its list-valued members well
    formed). *)
Theorem element_that_lacks_a_required_member
    (c : category) (d : value) (good : list value) (o : dict value) (rest : list value)
    (k : string) :
  json_path d ["data"; array_key c] = Some (JList (good ++ JObject o :: rest)) ->
  Forall (fun x => exists r, row_of c x = Ok r) good ->
  k ∈ required_fields c ->
  dict_lookup k o = None ->
  (forall k', k' ∈ required_fields c -> k' <> k -> is_Some (dict_lookup k' o)) ->
  list_members_ok c o = true ->
  extract c d = Raise (KeyError k).
Proof.
  intros Hp Hgood Hk Hnone Hothers Hlists. rewrite (extract_unfold c d _ Hp).
  apply map_result_Raise. exists (length good), (JObject o).
  split; [by apply list_lookup_middle|].
  split; [by apply row_of_KeyError|]. by rewrite take_app_length.
Qed.

(** X13: each extractor reads its own array and nothing else of the
    document: two documents with the same array give the same records, or
    the same exception.  In particular a relationship is extracted whether
    or not its session and speaker are among the sessions and speakers. *)
Theorem extractor_reads_only_its_array (c : category) (d d' : value) (v : value) :
  json_path d ["data"; array_key c] = Some v ->
  json_path d' ["data"; array_key c] = Some v ->
  extract c d = extract c d'.
Proof. intros H H'. by rewrite (extract_iter c d v H), (extract_iter c d' v H'). Qed.

(** *** What a run does to the disk *)

Lemma write_csv_effect (filename : string) (data : list record) (fieldnames : list string) :
  exists r text, forall fs : files,
    write_csv filename data fieldnames fs = (r, <[filename := text]> fs).
Proof.
  exists (written fieldnames data).1, (written fieldnames data).2.
  intros fs. apply write_csv_written.
Qed.

(** X14: [write_csv] replaces the file: what the file held before has no
    effect on the outcome or on the new contents (nothing is appended), and
    no other file is touched, also when the writer raises. *)
Theorem write_csv_replaces_file
    (filename : string) (data : list record) (fieldnames : list string)
    (fs : files) (old : string) :
  write_csv filename data fieldnames (<[filename := old]> fs)
  = write_csv filename data fieldnames fs
  /\ forall q, q <> filename ->
       (write_csv filename data fieldnames fs).2 !! q = fs !! q.
Proof.
  destruct (write_csv_effect filename data fieldnames) as (r & text & H).
  rewrite !H. split; [by rewrite insert_insert_eq|].
  intros q Hq. simpl. by rewrite lookup_insert_ne.
Qed.

(** X15: a run changes no file but the three outputs: every other path,
    the input file among them, holds after the run what it held before,
    whatever the outcome. *)
Theorem main_touches_only_outputs (fs : files) (p : string) :
  p ∉ output_paths -> (main fs).2 !! p = fs !! p.
Proof.
  intros Hp. rewrite main_unfold.
  destruct (fs !! json_file) as [text|]; [|done].
  destruct (json_loads text) as [d|]; [|done].
  rewrite convert_plan. simpl. apply write_all_frame.
  intros H. by apply Hp, (plan_paths d).
Qed.

(** X16: when the input file is missing the run raises
    [FileNotFoundError], and when its text does not parse the run raises
    the decoder's exception; in both cases nothing is written. *)
Theorem unreadable_input_writes_nothing (fs : files) :
  (fs !! json_file = None -> main fs = (Raise FileNotFoundError, fs))
  /\ (forall text, fs !! json_file = Some text -> json_loads text = None ->
        main fs = (Raise JSONDecodeError, fs)).
Proof.
  split.
  - intros H. by rewrite main_unfold, H.
  - intros text H Hparse. by rewrite main_unfold, H, Hparse.
Qed.

(** X17: a run that succeeds has passed the metadata summary and the three
    extractions, every record was written, and each output file holds the
    header and all the records of its extractor: no file of a successful
    run is cut short. *)
Theorem successful_run_wrote_everything (d : value) (fs : files) :
  (convert d fs).1 = Ok tt ->
  print_metadata d = Ok tt
  /\ forall c : category,
       exists rows,
         extract c d = Ok rows
         /\ Forall (writable (fields_of c)) rows
         /\ (convert d fs).2 !! output_path c = Some (csv_text (fields_of c) rows)
         /\ csv_records (csv_text (fields_of c) rows)
            = fields_of c :: map (row_text (fields_of c)) rows.
Proof.
  rewrite convert_plan. simpl. intros Hok.
  pose proof (plan_Ok d Hok) as (Hm & r1 & r2 & r3 & E1 & E2 & E3 & _).
  split; [done|]. intros c.
  assert (exists rows, extract c d = Ok rows) as [rows He] by (destruct c; by eexists).
  destruct (plan_Ok_file d fs c rows Hok He) as [Hw Hfile].
  exists rows. split; [done|]. split; [done|]. split; [done|]. apply csv_records_text.
Qed.

(** X18: an empty array gives a file that holds the header and nothing
    else, when the run succeeds. *)
Theorem empty_array_gives_header_only (c : category) (d : value) (fs : files) :
  (convert d fs).1 = Ok tt ->
  json_path d ["data"; array_key c] = Some (JList []) ->
  (convert d fs).2 !! output_path c = Some (csv_line (fields_of c))
  /\ csv_records (csv_line (fields_of c)) = [fields_of c].
Proof.
  rewrite convert_plan. simpl. intros Hok Hp.
  pose proof (extract_unfold c d [] Hp) as He. simpl in He.
  destruct (plan_Ok_file d fs c [] Hok He) as [_ ->]. split; [done|].
  apply (csv_records_text (fields_of c) []).
Qed.

(** X19: the files written by a run are the first [n] of [sessions.csv],
    [speakers.csv] and [session_speakers.csv], in that order, for some [n]
    that depends on the document alone; the others are left as they were,
    and a run that succeeds has written all three. *)
Theorem outputs_written_in_order (d : value) :
  exists n : nat,
    (forall fs, (convert d fs).1 = Ok tt -> n = 3%nat)
    /\ forall (fs : files) (i : nat) (p : string), output_paths !! i = Some p ->
         ((i < n)%nat -> exists text, (convert d fs).2 !! p = Some text)
         /\ ((n <= i)%nat -> (convert d fs).2 !! p = fs !! p).
Proof.
  pose proof sessions_csv_ne_speakers_csv.
  pose proof sessions_csv_ne_session_speakers_csv.
  pose proof speakers_csv_ne_session_speakers_csv.
  assert (forall ws : list (string * string), ws.*1 = take (length ws) output_paths ->
    forall (fs : files) (i : nat) (p : string), output_paths !! i = Some p ->
      ((i < length ws)%nat -> exists text, write_all ws fs !! p = Some text)
      /\ ((length ws <= i)%nat -> write_all ws fs !! p = fs !! p)) as Hshape.
  { intros ws Hws fs i p Hi. unfold output_paths in *.
    destruct ws as [|[p1 t1] [|[p2 t2] [|[p3 t3] [|? ?]]]]; simpl in Hws; try done;
      simplify_eq; destruct i as [|[|[|i]]]; simpl in Hi; simplify_eq; simpl;
      (split; [intros ?; first [lia | eexists; by read_disk]
              | intros ?; first [lia | by read_disk]]). }
  exists (length (plan d).2). split.
  - intros fs. rewrite convert_plan. simpl. intros Hok.
    pose proof (plan_Ok_paths d Hok) as Hp. apply (f_equal length) in Hp.
    by rewrite length_fmap in Hp.
  - intros fs i p Hi. rewrite convert_plan. simpl. apply Hshape; [|done].
    by run_plan d.
Qed.

Lemma print_metadata_object (d : value) :
  print_metadata d = Ok tt -> exists o, d = JObject o.
Proof.
  unfold print_metadata. intros H. inv_bind H.
  match goal with
  | E : py_getitem d "metadata" = Ok _ |- _ => apply py_getitem_Ok in E as (o & -> & _)
  end.
  by eexists.
Qed.

(** X20: the metadata is only printed: two documents whose metadata
    summaries pass and whose [data] members are the same give the same
    outcome and the same files, whatever the metadata say (the declared
    counts are not compared with the arrays). *)
Theorem metadata_values_ignored (d d' : value) (fs : files) :
  print_metadata d = Ok tt ->
  print_metadata d' = Ok tt ->
  json_path d ["data"] = json_path d' ["data"] ->
  convert d fs = convert d' fs.
Proof.
  intros Hm Hm' Hdata.
  destruct (print_metadata_object d Hm) as [o ->].
  destruct (print_metadata_object d' Hm') as [o' ->].
  assert (py_getitem (JObject o) "data" = py_getitem (JObject o') "data") as Hget.
  { simpl in Hdata |- *.
    destruct (dict_lookup "data" o), (dict_lookup "data" o'); by simplify_eq. }
  rewrite !convert_plan. unfold plan. rewrite Hm, Hm'.
  unfold extract_sessions, extract_speakers, extract_session_speakers.
  by rewrite Hget.
Qed.

(** *** What a written file tells *)

(** X22: a written file determines its table: when two successful writes
    leave the same text, they were given the same field list and records
    with the same cell texts, row by row; quoting leaves no ambiguity
    between a separator and a comma, quote or line break inside a cell. *)
Theorem same_file_same_cells
    (p1 p2 : string) (data1 data2 : list record) (fields1 fields2 : list string)
    (fs1 fs2 fs1' fs2' : files) :
  write_csv p1 data1 fields1 fs1 = (Ok tt, fs1') ->
  write_csv p2 data2 fields2 fs2 = (Ok tt, fs2') ->
  fs1' !! p1 = fs2' !! p2 ->
  fields1 = fields2
  /\ map (row_text fields1) data1 = map (row_text fields2) data2.
Proof.
  intros H1 H2 Hsame.
  pose proof (write_csv_Ok p1 data1 fields1 fs1) as (_ & _ & W1); [by rewrite H1|].
  pose proof (write_csv_Ok p2 data2 fields2 fs2) as (_ & _ & W2); [by rewrite H2|].
  rewrite W1 in H1. rewrite W2 in H2.
  injection H1 as <-. injection H2 as <-.
  rewrite !lookup_insert_eq in Hsame. injection Hsame as Htext.
  apply (f_equal csv_records) in Htext. rewrite !csv_records_text in Htext.
  by injection Htext.
Qed.

End Converter.

(** ** Concrete runs *)

(** C1, refuted as stated: the record lacks the field [b] of the field
    list, and the writer succeeds and writes an empty second column. *)
Lemma missing_field_written_blank :
  "b" ∈ ["a"; "b"]
  /\ ("b" ∉ dict_keys [("a", JString "1")])
  /\ forall py_repr,
       write_csv py_repr "out.csv" [[("a", JString "1")]] ["a"; "b"] ∅
       = (Ok tt, {["out.csv" := "a,b" +:+ lineterminator +:+ "1," +:+ lineterminator]}).
Proof.
  split; [by right; left|]. split.
  - by intros ?%list_elem_of_singleton.
  - intros py_repr. rewrite write_csv_ok; [done | done | by apply one_writable].
Qed.

Lemma write_csv_blank_for_missing_field_witness :
  (write_csv sample_repr "out.csv" [[("a", JString "1")]] ["a"; "b"] ∅).1 = Ok tt
  /\ write_csv sample_repr "out.csv" [[("a", JString "1"); ("b", JString "")]] ["a"; "b"] ∅
     = write_csv sample_repr "out.csv" [[("a", JString "1")]] ["a"; "b"] ∅
  /\ exists text,
       write_csv sample_repr "out.csv" [[("a", JString "1")]] ["a"; "b"] ∅
       = (Ok tt, <["out.csv" := text]> ∅)
       /\ csv_records text = [["a"; "b"]; ["1"; ""]].
Proof.
  assert ((write_csv sample_repr "out.csv" [[("a", JString "1")]] ["a"; "b"] ∅).1 = Ok tt)
    as Hok.
  { rewrite write_csv_ok; [done | done | by apply one_writable]. }
  split; [exact Hok|].
  destruct (write_csv_blank_for_missing_field sample_repr "out.csv"
              [[("a", JString "1")]] ["a"; "b"] ∅) as (Hsame & _ & Hread).
  split; [exact Hsame|].
  destruct (Hread Hok) as (text & Hw & Hrecords & _).
  exists text. split; [exact Hw | exact Hrecords].
Defined.

(** C2, refuted as stated: a null [description] reaches the flat record as
    [None], not as the empty string. *)
Lemma null_description_stays_null :
  exists r,
    dict_lookup "description" session_null_description = Some JNull
    /\ session_row (JObject session_null_description) = Ok r
    /\ dict_lookup "description" r = Some JNull
    /\ dict_lookup "description" r <> Some (JString "").
Proof. eexists. repeat split; [reflexivity..|discriminate]. Qed.

Lemma optional_scalar_gives_empty_column_witness :
  exists r,
    row_of Sessions (JObject session_null_description) = Ok r
    /\ "description" ∈ optional_scalars Sessions
    /\ fields_of Sessions !! 2%nat = Some "description"
    /\ dict_lookup "description" r = Some JNull
    /\ row_text sample_repr (fields_of Sessions) r !! 2%nat = Some "".
Proof.
  eexists. split; [reflexivity|]. split; [by left|]. split; [reflexivity|].
  edestruct (optional_scalar_gives_empty_column sample_repr Sessions
               session_null_description _ "description" 2 eq_refl)
    as (_ & Hnull & Hcol); [by left | reflexivity |].
  split; [by apply Hnull|]. by apply Hcol; right.
Defined.

(** C3, refuted as stated: the exception is the same whether the session
    that lacks [id] is the first or the second of the array, and the same
    whether the session that lacks [title] is [a] at position 0 or [b] at
    position 1: it carries the key alone, so nothing read off the exception
    gives the position of the session. *)
Lemma key_error_names_only_the_key :
  extract_sessions (document [JObject session_without_id] [] [])
  = Raise (KeyError "id")
  /\ extract_sessions (document [talk_session; JObject session_without_id] [] [])
     = Raise (KeyError "id")
  /\ extract_sessions (document [JObject (session_without_title "a")] [] [])
     = Raise (KeyError "title")
  /\ extract_sessions
       (document [talk_session; JObject (session_without_title "b")] [] [])
     = Raise (KeyError "title")
  /\ ~ exists position_of : exn -> nat,
         (forall e, extract_sessions (document [JObject session_without_id] [] [])
                    = Raise e -> position_of e = 0%nat)
         /\ (forall e, extract_sessions
                         (document [talk_session; JObject session_without_id] [] [])
                       = Raise e -> position_of e = 1%nat).
Proof.
  repeat split; try reflexivity.
  intros (position_of & H0 & H1).
  specialize (H0 (KeyError "id") eq_refl). specialize (H1 (KeyError "id") eq_refl).
  congruence.
Qed.

Lemma missing_required_session_field_witness :
  json_path (document [talk_session; JObject session_without_id] [] [])
    ["data"; "sessions"] = Some (JList [talk_session; JObject session_without_id])
  /\ extract_sessions (document [talk_session; JObject session_without_id] [] [])
     = Raise (KeyError "id")
  /\ exists e, convert sample_repr
                 (document [talk_session; JObject session_without_id] [] []) ∅
               = (Raise e, ∅).
Proof.
  split; [reflexivity|].
  destruct (missing_required_session_field sample_repr
              (document [talk_session; JObject session_without_id] [] [])
              [talk_session; JObject session_without_id] 1 session_without_id "id" ∅)
    as (_ & Hrun & Hkey); [reflexivity | reflexivity | by left | reflexivity |].
  split; [|exact Hrun]. apply Hkey.
  - constructor; [by eexists | constructor].
  - intros k' Hk' Hne. unfold session_required in Hk'.
    repeat (apply elem_of_cons in Hk' as [->|Hk']; [done || by eexists|]).
    by apply elem_of_nil in Hk'.
  - reflexivity.
Defined.

(** C4, refuted as stated: the document is valid, its second session has
    a title that UTF-8 cannot encode, and the run raises while it writes
    that session: [sessions.csv] is left with one data row for an array of
    two sessions, and the other two files are not written. *)
Lemma valid_document_cut_short :
  valid_document surrogate_document = true
  /\ json_path surrogate_document ["data"; "sessions"]
     = Some (JList [talk_session; untitled_session])
  /\ convert sample_repr surrogate_document ∅
     = (Raise UnicodeEncodeError, {[sessions_csv := talk_csv]})
  /\ csv_records talk_csv
     = [session_fields;
        ["s1"; "Talk"; ""; "T0"; "T1"; ""; ""; ""; "ai|cloud"; ""; ""; "C0"]]
  /\ length (csv_records talk_csv) <> S (length [talk_session; untitled_session]).
Proof.
  split; [reflexivity|]. split; [reflexivity|]. split; [|by split].
  by rewrite convert_plan.
Qed.

Lemma rows_follow_input_witness :
  valid_document sample_document = true
  /\ (convert sample_repr sample_document ∅).1 = Ok tt
  /\ forall c : category,
       exists (items : list value) (text : string),
         json_path sample_document ["data"; array_key c] = Some (JList items)
         /\ (convert sample_repr sample_document ∅).2 !! output_path c = Some text
         /\ length (csv_records text) = S (length items).
Proof.
  split; [reflexivity|].
  assert ((convert sample_repr sample_document ∅).1 = Ok tt) as Hok
    by by rewrite convert_plan.
  split; [exact Hok|].
  destruct (rows_follow_input sample_repr sample_document ∅ eq_refl) as [_ Hrows].
  intros c. destruct (Hrows Hok c) as (items & text & Hp & Hfile & Hlen & _).
  exists items, text. split; [exact Hp|]. split; [exact Hfile | exact Hlen].
Defined.

Lemma talk_scenario_witness :
  print_metadata sample_document = Ok tt
  /\ json_path sample_document ["data"; "sessions"] = Some (JList [talk_session])
  /\ (convert sample_repr sample_document ∅).2 !! sessions_csv = Some talk_csv.
Proof.
  split; [reflexivity|]. split; [reflexivity|].
  destruct (talk_scenario sample_repr sample_document ∅ eq_refl eq_refl)
    as (_ & Hfile & _).
  exact Hfile.
Defined.

(** C6, refuted as stated: the empty list of tags has no item with a bar,
    it is written as the empty string, and the empty string splits into
    one empty item; a list holding one empty string is written the same. *)
Lemma empty_tags_do_not_split_back :
  Forall (fun s => has_char "|" s = false) []
  /\ (exists r, session_row (JObject (session_tags (map JString []))) = Ok r
                /\ dict_lookup "tags" r = Some (JString ""))
  /\ split_on "|" "" = [""]
  /\ split_on "|" "" <> []
  /\ (exists r, session_row (JObject (session_tags (map JString [""]))) = Ok r
                /\ dict_lookup "tags" r = Some (JString "")).
Proof.
  split; [constructor|]. split; [by eexists|]. split; [reflexivity|].
  split; [discriminate|]. by eexists.
Qed.

Lemma joined_list_splits_back_witness :
  exists r,
    row_of Sessions (JObject (session_tags (map JString ["ai"; "cloud"]))) = Ok r
    /\ dict_lookup "tags" r = Some (JString "ai|cloud")
    /\ split_on "|" "ai|cloud" = ["ai"; "cloud"].
Proof.
  eexists. split; [reflexivity|].
  edestruct (joined_list_splits_back Sessions
               (session_tags (map JString ["ai"; "cloud"])) _ "tags" ["ai"; "cloud"]
               eq_refl)
    as (text & Hr & -> & Hsplit);
    [by left | reflexivity | discriminate | by repeat constructor |].
  split; [exact Hr | exact Hsplit].
Defined.

Lemma main_deterministic_witness :
  (main sample_repr sample_loads (<[json_file := "sample"]> ∅)).1 = Ok tt
  /\ (main sample_repr sample_loads (<[json_file := "sample"]> ∅)).2 !! sessions_csv
     = (main sample_repr sample_loads
          (<[json_file := "sample"]> {[speakers_csv := "stale"]})).2 !! sessions_csv
  /\ main sample_repr sample_loads
       (main sample_repr sample_loads (<[json_file := "sample"]> ∅)).2
     = main sample_repr sample_loads (<[json_file := "sample"]> ∅).
Proof.
  assert ((main sample_repr sample_loads (<[json_file := "sample"]> ∅)).1 = Ok tt) as Hok.
  { rewrite main_unfold, lookup_insert_eq. reflexivity. }
  split; [exact Hok|].
  destruct (main_deterministic sample_repr sample_loads "sample" ∅
              {[speakers_csv := "stale"]}) as (_ & Hsame & Hagain).
  split; [|exact Hagain]. apply Hsame; [by left | exact Hok].
Defined.

Lemma speakers_failure_keeps_sessions_csv_witness :
  print_metadata broken_speakers_document = Ok tt
  /\ extract_speakers broken_speakers_document = Raise (KeyError "id")
  /\ convert sample_repr broken_speakers_document {[speakers_csv := "old"]}
     = (Raise (KeyError "id"),
        <[sessions_csv := talk_csv]> {[speakers_csv := "old"]})
  /\ (convert sample_repr broken_speakers_document {[speakers_csv := "old"]}).2
       !! speakers_csv = Some "old".
Proof.
  split; [reflexivity|]. split; [reflexivity|].
  edestruct (speakers_failure_keeps_sessions_csv sample_repr broken_speakers_document
               _ (KeyError "id") {[speakers_csv := "old"]} eq_refl eq_refl)
    as (Hrun & _ & _ & Hspeakers & _); [by rewrite write_csv_written | reflexivity |].
  split; [exact Hrun|]. rewrite Hspeakers. apply lookup_singleton_eq.
Defined.

Lemma extractor_records_fit_field_lists_witness :
  exists rows,
    extract Sessions sample_document = Ok rows
    /\ length rows = 1%nat
    /\ Forall (fun r => dict_keys r = session_fields
                        /\ wrong_fields session_fields r = []
                        /\ dict_to_list session_fields r = Ok (row_cells session_fields r))
         rows.
Proof.
  eexists. split; [reflexivity|]. split; [reflexivity|].
  by destruct (extractor_records_fit_field_lists sample_document Sessions _ eq_refl)
    as [Hkeys _].
Defined.

Lemma missing_metadata_aborts_witness :
  json_path no_metadata_document ["metadata"] = None
  /\ print_metadata no_metadata_document = Raise (KeyError "metadata")
  /\ convert sample_repr no_metadata_document ∅ = (Raise (KeyError "metadata"), ∅).
Proof.
  split; [reflexivity|].
  destruct (missing_metadata_aborts sample_repr no_metadata_document ["metadata"] ∅)
    as (e & He & _ & Hrun); [by left | reflexivity |].
  assert (e = KeyError "metadata") as -> by (by injection He).
  by split.
Defined.

Lemma write_csv_rejects_extra_field_witness :
  ~ dict_keys [("a", JString "2"); ("c", JString "3")] ⊆ ["a"; "b"]
  /\ write_csv sample_repr "out.csv"
       ([[("a", JString "1")]] ++ [("a", JString "2"); ("c", JString "3")] :: [])
       ["a"; "b"] ∅
     = (Raise ValueError, <["out.csv" := csv_text sample_repr ["a"; "b"] [[("a", JString "1")]]]> ∅)
  /\ csv_records (csv_text sample_repr ["a"; "b"] [[("a", JString "1")]])
     = [["a"; "b"]; ["1"; ""]].
Proof.
  assert (~ dict_keys [("a", JString "2"); ("c", JString "3")] ⊆ ["a"; "b"]) as Hextra.
  { intros H. specialize (H "c"). simpl in H.
    assert ("c" ∈ ["a"; "b"]) as Hc by (apply H; by right; left).
    apply elem_of_cons in Hc as [[=]|Hc]. by apply list_elem_of_singleton in Hc. }
  split; [exact Hextra|].
  destruct (write_csv_rejects_extra_field sample_repr "out.csv"
              [[("a", JString "1")]] [("a", JString "2"); ("c", JString "3")] []
              ["a"; "b"] ∅) as [Hrun Hread];
    [reflexivity | by apply one_writable | exact Hextra | by split].
Defined.

(** A record whose second cell holds a lone surrogate, after one that is
    written. *)
Lemma write_csv_stops_at_unwritable_cell_witness :
  unencodable sample_repr ["a"; "b"] [("a", JString "2"); ("b", JString lone_surrogate)] = true
  /\ write_csv sample_repr "out.csv"
       ([[("a", JString "1")]] ++ [("a", JString "2"); ("b", JString lone_surrogate)] :: [])
       ["a"; "b"] ∅
     = (Raise UnicodeEncodeError,
        <["out.csv" := csv_text sample_repr ["a"; "b"] [[("a", JString "1")]]]> ∅).
Proof.
  split; [reflexivity|].
  apply (write_csv_stops_at_unwritable_cell sample_repr "out.csv"
           [[("a", JString "1")]] [("a", JString "2"); ("b", JString lone_surrogate)] []
           ["a"; "b"] ∅); [reflexivity | by apply one_writable | | reflexivity].
  intros k Hk. simpl in Hk.
  repeat (apply elem_of_cons in Hk as [->|Hk]; [by repeat constructor|]).
  by apply elem_of_nil in Hk.
Defined.

Lemma present_member_copied_verbatim_witness :
  exists r,
    row_of Speakers (JObject [("id", JInt 7); ("name", JString "Ada");
                              ("bio", JBool true); ("createdAt", JNull)]) = Ok r
    /\ dict_lookup "id" r = Some (JInt 7)
    /\ row_text sample_repr (fields_of Speakers) r !! 0%nat = Some "7".
Proof.
  eexists. split; [reflexivity|].
  apply (present_member_copied_verbatim sample_repr Speakers
           [("id", JInt 7); ("name", JString "Ada"); ("bio", JBool true);
            ("createdAt", JNull)] _ "id" (JInt 7) 0 eq_refl);
    [by left | reflexivity | reflexivity].
Defined.

Lemma other_members_ignored_witness :
  row_of SessionSpeakers
    (JObject [("sessionId", JString "s1"); ("speakerId", JString "p1")])
  = row_of SessionSpeakers
      (JObject [("role", JString "chair"); ("sessionId", JString "s1");
                ("speakerId", JString "p1")]).
Proof.
  apply other_members_ignored. intros k Hk. simpl in Hk.
  repeat (apply elem_of_cons in Hk as [->|Hk]; [reflexivity|]).
  by apply elem_of_nil in Hk.
Defined.

Lemma falsy_list_member_written_empty_witness :
  exists r,
    row_of Sessions (JObject (session_tags [])) = Ok r
    /\ py_truthy (default JNull (dict_lookup "tags" (session_tags []))) = false
    /\ dict_lookup "tags" r = Some (JString "").
Proof.
  eexists. split; [reflexivity|]. split; [reflexivity|].
  by apply (falsy_list_member_written_empty Sessions (session_tags []) _ "tags" eq_refl);
    [left|].
Defined.

Lemma text_member_joined_by_character_witness :
  exists r,
    row_of Speakers (JObject [("id", JString "p1"); ("name", JString "Ada");
                              ("expertise", JString "né"); ("createdAt", JString "C1")])
    = Ok r
    /\ dict_lookup "expertise" r = Some (JString "n|é").
Proof.
  eexists. split; [reflexivity|].
  by apply (text_member_joined_by_character Speakers
              [("id", JString "p1"); ("name", JString "Ada");
               ("expertise", JString "né"); ("createdAt", JString "C1")]
              "expertise" "né"); [left| |].
Defined.

Lemma non_text_list_item_raises_witness :
  forallb is_str [JString "ai"; JInt 5] = false
  /\ row_of Sessions (JObject (session_tags [JString "ai"; JInt 5])) = Raise TypeError.
Proof.
  split; [reflexivity|].
  by apply (non_text_list_item_raises Sessions (session_tags [JString "ai"; JInt 5])
              "tags" [JString "ai"; JInt 5]); [left| | |].
Defined.

Lemma bar_in_item_not_escaped_witness :
  exists r1 r2,
    row_of Sessions (JObject (session_tags (map JString ([] ++ ("a" +:+ "|" +:+ "b") :: []))))
    = Ok r1
    /\ row_of Sessions (JObject (session_tags (map JString ([] ++ "a" :: "b" :: [])))) = Ok r2
    /\ dict_lookup "tags" r1 = dict_lookup "tags" r2
    /\ dict_lookup "tags" r2 = Some (JString "a|b").
Proof.
  eexists _, _. split; [reflexivity|]. split; [reflexivity|].
  by apply (bar_in_item_not_escaped Sessions
              (session_tags (map JString ([] ++ ("a" +:+ "|" +:+ "b") :: [])))
              (session_tags (map JString ([] ++ "a" :: "b" :: [])))
              _ _ "tags" [] [] "a" "b" eq_refl eq_refl);
    [left| |].
Defined.

Lemma array_that_is_not_a_list_witness :
  json_path sessions_object_document ["data"; "sessions"]
  = Some (JObject [("s1", talk_session)])
  /\ extract_sessions sessions_object_document = Raise TypeError.
Proof.
  split; [reflexivity|].
  by apply (array_that_is_not_a_list Sessions sessions_object_document
              (JObject [("s1", talk_session)])).
Defined.

Lemma array_that_is_missing_witness :
  json_path (JObject [("metadata", sample_metadata); ("data", JObject [])])
    ["data"; "speakers"] = None
  /\ extract_speakers (JObject [("metadata", sample_metadata); ("data", JObject [])])
     = Raise (KeyError "speakers").
Proof.
  split; [reflexivity|].
  by apply (array_that_is_missing Speakers
              (JObject [("metadata", sample_metadata); ("data", JObject [])])).
Defined.

Lemma extraction_stops_at_first_failure_witness :
  row_of Speakers nameless_speaker = Raise (KeyError "id")
  /\ extract_speakers (document [] ([sample_speaker] ++ nameless_speaker :: [JNull]) [])
     = Raise (KeyError "id").
Proof.
  split; [reflexivity|].
  apply (extraction_stops_at_first_failure Speakers _ [sample_speaker] nameless_speaker
           [JNull]); [reflexivity | | reflexivity].
  constructor; [by eexists | constructor].
Defined.

Lemma element_that_is_not_an_object_witness :
  is_object (JString "s1") = false
  /\ extract_sessions (document ([talk_session] ++ JString "s1" :: []) [] [])
     = Raise TypeError.
Proof.
  split; [reflexivity|].
  apply (element_that_is_not_an_object Sessions _ [talk_session] (JString "s1") []);
    [reflexivity | | reflexivity].
  constructor; [by eexists | constructor].
Defined.

Lemma element_that_lacks_a_required_member_witness :
  dict_lookup "createdAt" speaker_without_createdAt = None
  /\ extract_speakers
       (document [] ([sample_speaker] ++ JObject speaker_without_createdAt :: []) [])
     = Raise (KeyError "createdAt").
Proof.
  split; [reflexivity|].
  apply (element_that_lacks_a_required_member Speakers _ [sample_speaker]
           speaker_without_createdAt [] "createdAt");
    [reflexivity | | by right; right; left | reflexivity | | reflexivity].
  - constructor; [by eexists | constructor].
  - intros k' Hk' Hne. simpl in Hk'. unfold speaker_required in Hk'.
    repeat (apply elem_of_cons in Hk' as [->|Hk']; [done || by eexists|]).
    by apply elem_of_nil in Hk'.
Defined.

Lemma extractor_reads_only_its_array_witness :
  extract SessionSpeakers (document [] [] [sample_relationship])
  = extract SessionSpeakers sample_document.
Proof.
  by apply (extractor_reads_only_its_array SessionSpeakers _ _
              (JList [sample_relationship])).
Defined.

Lemma main_touches_only_outputs_witness :
  (json_file ∉ output_paths)
  /\ (main sample_repr sample_loads {[json_file := "sample"]}).2 !! json_file
     = Some "sample".
Proof.
  split; [apply json_file_not_output|].
  rewrite (main_touches_only_outputs sample_repr sample_loads) by apply json_file_not_output.
  apply lookup_singleton_eq.
Defined.

Lemma unreadable_input_writes_nothing_witness :
  main sample_repr sample_loads ∅ = (Raise FileNotFoundError, ∅)
  /\ main sample_repr sample_loads {[json_file := "{"]}
     = (Raise JSONDecodeError, {[json_file := "{"]}).
Proof.
  split.
  - apply (unreadable_input_writes_nothing sample_repr sample_loads ∅).
    apply lookup_empty.
  - apply (unreadable_input_writes_nothing sample_repr sample_loads {[json_file := "{"]})
      with (text := "{"); [apply lookup_singleton_eq | reflexivity].
Defined.

Lemma successful_run_wrote_everything_witness :
  (convert sample_repr sample_document ∅).1 = Ok tt
  /\ print_metadata sample_document = Ok tt
  /\ (convert sample_repr sample_document ∅).2 !! sessions_csv = Some talk_csv.
Proof.
  assert ((convert sample_repr sample_document ∅).1 = Ok tt) as Hok
    by by rewrite convert_plan.
  split; [exact Hok|].
  destruct (successful_run_wrote_everything sample_repr sample_document ∅ Hok)
    as [Hm Hfiles].
  split; [exact Hm|].
  destruct (Hfiles Sessions) as (rows & He & _ & Hfile & _).
  injection He as <-. exact Hfile.
Defined.

Lemma empty_array_gives_header_only_witness :
  (convert sample_repr (document [talk_session] [] []) ∅).1 = Ok tt
  /\ (convert sample_repr (document [talk_session] [] []) ∅).2 !! speakers_csv
     = Some (csv_line speaker_fields)
  /\ csv_records (csv_line speaker_fields) = [speaker_fields].
Proof.
  assert ((convert sample_repr (document [talk_session] [] []) ∅).1 = Ok tt) as Hok
    by by rewrite convert_plan.
  split; [exact Hok|].
  apply (empty_array_gives_header_only sample_repr Speakers _ ∅ Hok). reflexivity.
Defined.

Lemma metadata_values_ignored_witness :
  print_metadata miscounted_document = Ok tt
  /\ convert sample_repr sample_document ∅ = convert sample_repr miscounted_document ∅.
Proof.
  split; [reflexivity|].
  by apply (metadata_values_ignored sample_repr sample_document miscounted_document ∅).
Defined.

Lemma same_file_same_cells_witness :
  write_csv sample_repr "a.csv" [[("n", JNull)]] ["n"; "m"] ∅
  = (Ok tt, {["a.csv" := csv_text sample_repr ["n"; "m"] [[("n", JNull)]]]})
  /\ map (row_text sample_repr ["n"; "m"]) [[("n", JNull)]]
     = map (row_text sample_repr ["n"; "m"]) [[("m", JString "")]].
Proof.
  assert (write_csv sample_repr "a.csv" [[("n", JNull)]] ["n"; "m"] ∅
          = (Ok tt, {["a.csv" := csv_text sample_repr ["n"; "m"] [[("n", JNull)]]]})) as H1.
  { by apply write_csv_ok; [|apply one_writable]. }
  assert (write_csv sample_repr "b.csv" [[("m", JString "")]] ["n"; "m"] ∅
          = (Ok tt, {["b.csv" := csv_text sample_repr ["n"; "m"] [[("m", JString "")]]]})) as H2.
  { by apply write_csv_ok; [|apply one_writable]. }
  split; [exact H1|].
  apply (same_file_same_cells sample_repr "a.csv" "b.csv" _ _ _ _ _ _ _ _ H1 H2).
  by rewrite !lookup_singleton_eq.
Defined.
